(** * Referral-fraud heuristics of the user model (models/User.js)

    A shallow embedding of the static methods [isSameDevice],
    [findMatchingFingerprint], [findByReferralCode], [awardReferralPoints]
    and of the instance method [addPoints] of the Mongoose user model,
    followed by the properties of the fingerprint similarity evaluator and
    of the referral points transaction.

    Modelling choices.
    - A fingerprint is a JavaScript object read by property name, so it is
      a finite map from property names to JavaScript values.
    - JavaScript numbers are modelled by rationals: every finite double is
      a rational, and on finite doubles truthiness (non-zero) and [===]
      coincide with their rational counterparts.  NaN and the infinities
      are not modelled.  The quotient [matchCount / totalChecks] is the
      exact rational quotient; the double quotient is its rounding, which
      is monotone and leaves 0 and 1 fixed, and the thresholds of the call
      sites are written 7/10, which [isSameDevice_literal_threshold]
      shows to give the verdicts of the double nearest to 0.7.
    - An absent fingerprint ([null] or [undefined]) is [None]; the default
      values of optional parameters are passed explicitly.
    - The document store is the list of accounts in iteration order; the
      asynchronous calls of one invocation run one after the other, so an
      invocation is a function from the store to a result and a store. *)

From Stdlib Require Import QArith Qround.
From stdpp Require Import gmap strings list fin_maps.

Open Scope string_scope.

(** ** JavaScript values *)

Module JS.

(** The primitive values a fingerprint property can hold, and [JRef] for
    any non-primitive (an array such as [components], a Date), known only
    by its identity. *)
Inductive value : Type :=
  | JUndefined
  | JNull
  | JBool (b : bool)
  | JNum (q : Q)
  | JStr (s : string)
  | JRef (addr : N).

(** ToBoolean: [undefined], [null], [false], [0] and the empty string are
    falsy, everything else is truthy. *)
Definition truthy (v : value) : bool :=
  match v with
  | JUndefined | JNull => false
  | JBool b => b
  | JNum q => negb (Qeq_bool q 0)
  | JStr s => negb (String.eqb s "")
  | JRef _ => true
  end.

(** Strict equality [===]: no conversion between types, strings compared
    character by character, non-primitives by identity. *)
Definition strict_eq (v w : value) : bool :=
  match v, w with
  | JUndefined, JUndefined => true
  | JNull, JNull => true
  | JBool a, JBool b => Bool.eqb a b
  | JNum p, JNum q => Qeq_bool p q
  | JStr s, JStr t => String.eqb s t
  | JRef a, JRef b => N.eqb a b
  | _, _ => false
  end.

Definition is_undefined (v : value) : bool :=
  match v with JUndefined => true | _ => false end.

End JS.

Import JS.

(** ** Fingerprints *)

(** A fingerprint object.  A property that is not in the map reads as
    [undefined]. *)
Abbreviation Fingerprint := (gmap string value).

(** Property access [fp[field]]. *)
Definition prop (fp : Fingerprint) (field : string) : value :=
  default JUndefined (fp !! field).

(** ** isSameDevice *)

(** The pair of counters [(matchCount, totalChecks)]. *)
Record Counters : Type := mkCounters { matchCount : nat; totalChecks : nat }.

(** The body shared by the [forEach] callback and by the two separate
    checks of [timezone] and [language]:
    [if (fp1[f] && fp2[f]) { totalChecks++; if (fp1[f] === fp2[f]) matchCount++; }] *)
Definition checkField (fingerprint1 fingerprint2 : Fingerprint)
    (c : Counters) (field : string) : Counters :=
  if truthy (prop fingerprint1 field) && truthy (prop fingerprint2 field) then
    {| totalChecks := S (totalChecks c);
       matchCount :=
         if strict_eq (prop fingerprint1 field) (prop fingerprint2 field)
         then S (matchCount c) else matchCount c |}
  else c.

Definition criticalFields : list string :=
  [ "platform"; "vendor"; "userAgent"; "screenResolution";
    "hardwareConcurrency"; "maxTouchPoints" ].

(** The counters after the [forEach] over [criticalFields], the timezone
    check and the language check. *)
Definition countChecks (fingerprint1 fingerprint2 : Fingerprint) : Counters :=
  let c := foldl (checkField fingerprint1 fingerprint2)
                 {| matchCount := 0; totalChecks := 0 |} criticalFields in
  let c := checkField fingerprint1 fingerprint2 c "timezone" in
  checkField fingerprint1 fingerprint2 c "language".

(** [totalChecks > 0 ? matchCount / totalChecks : 0] *)
Definition similarityScore (fingerprint1 fingerprint2 : Fingerprint) : Q :=
  let c := countChecks fingerprint1 fingerprint2 in
  if (0 <? totalChecks c)%nat
  then inject_Z (Z.of_nat (matchCount c)) / inject_Z (Z.of_nat (totalChecks c))
  else 0.

(** [isSameDevice(fingerprint1, fingerprint2, threshold)]; an absent
    fingerprint ([null] or [undefined]) is [None]. *)
Definition isSameDevice (fingerprint1 fingerprint2 : option Fingerprint)
    (threshold : Q) : bool :=
  match fingerprint1, fingerprint2 with
  | Some fp1, Some fp2 => Qle_bool threshold (similarityScore fp1 fp2)
  | _, _ => false
  end.

(** ** Accounts and the document store *)

(** The part of a user document the referral flow reads or writes. *)
Record User : Type := mkUser {
  _id : string;
  myReferralCode : string;
  points : N;
  fingerprint : option Fingerprint
}.

(** Truthiness of a value that is an object or [null]/[undefined]. *)
Definition present {A} (o : option A) : bool :=
  match o with Some _ => true | None => false end.

(** The collection, in the order a query iterates over it. *)
Abbreviation Store := (list User).

(** The errors [awardReferralPoints] throws. *)
Inductive Error : Type :=
  | InvalidReferralCode
  | NewUserNotFound
  | FraudSameDevice
  | FraudMultipleAccounts.


(** *** Store computations: a state and error monad *)

Definition M (A : Type) : Type := Store -> (Error + A) * Store.

Definition ret {A} (a : A) : M A := fun s => (inr a, s).

Definition throw {A} (e : Error) : M A := fun s => (inl e, s).

Definition bind {A B} (m : M A) (k : A -> M B) : M B :=
  fun s =>
    match m s with
    | (inl e, s') => (inl e, s')
    | (inr a, s') => k a s'
    end.

Declare Scope store_scope.
Delimit Scope store_scope with store.
Notation "x <- m ;; k" := (bind m (fun x => k))
  (at level 100, m at next level, right associativity) : store_scope.
Notation "m ;;; k" := (bind m (fun _ => k))
  (at level 100, right associativity) : store_scope.

(** [Model.findOne(query)]: the first document that satisfies the query. *)
Definition findOne (query : User -> bool) : M (option User) :=
  fun s => (inr (List.find query s), s).

(** [Model.find(query)]: every document that satisfies the query, in
    store order. *)
Definition find (query : User -> bool) : M (list User) :=
  fun s => (inr (List.filter query s), s).

(** [updateOne({_id: id}, {$set: ...})]: the first document with this id
    is changed. *)
Fixpoint updateOne (id : string) (set : User -> User) (s : Store) : Store :=
  match s with
  | [] => []
  | u :: rest =>
      if String.eqb (_id u) id then set u :: rest
      else u :: updateOne id set rest
  end.

Definition setPoints (p : N) (u : User) : User :=
  {| _id := _id u; myReferralCode := myReferralCode u;
     points := p; fingerprint := fingerprint u |}.

(** [doc.save()] after a change of [points]: the modified path is written
    to the stored document with the same [_id]; the call answers the
    document. *)
Definition save (doc : User) : M User :=
  fun s => (inr doc, updateOne (_id doc) (setPoints (points doc)) s).

(** *** The model's methods *)

(** [addPoints(points)]: [this.points += points; return this.save()] *)
Definition addPoints (this : User) (pts : N) : M User :=
  save (setPoints (points this + pts) this).

(** [findByReferralCode(referralCode)] *)
Definition findByReferralCode (referralCode : string) : M (option User) :=
  findOne (fun u => String.eqb (myReferralCode u) referralCode).

(** [findById(id)] *)
Definition findById (id : string) : M (option User) :=
  findOne (fun u => String.eqb (_id u) id).

(** The query [{ 'fingerprint.visitorId': { $exists: true } }]: the
    document has the field, whatever its value ([null] and the empty
    string included). *)
Definition visitorIdExists (u : User) : bool :=
  match fingerprint u with
  | Some fp => negb (is_undefined (prop fp "visitorId"))
  | None => false
  end.

(** The test of the loop of [findMatchingFingerprint]:
    [user.fingerprint && this.isSameDevice(user.fingerprint, fingerprintData, threshold)] *)
Definition matchesFingerprint (fingerprintData : option Fingerprint)
    (threshold : Q) (user : User) : bool :=
  present (fingerprint user)
  && isSameDevice (fingerprint user) fingerprintData threshold.

(** [findMatchingFingerprint(fingerprintData, threshold)]: the loop
    resolves with the first user that passes the test, with [null]
    ([None]) when the loop ends. *)
Definition findMatchingFingerprint (fingerprintData : option Fingerprint)
    (threshold : Q) : M (option User) :=
  (allUsers <- find visitorIdExists ;;
   ret (List.find (matchesFingerprint fingerprintData threshold) allUsers))%store.

(** The value [awardReferralPoints] returns. *)
Record AwardResult : Type := mkAwardResult {
  referrer : User;
  newUser : User;
  referrerPointsAwarded : N;
  newUserPointsAwarded : N;
  fraudCheckPassed : bool
}.

(** The fraud block of [awardReferralPoints]
    ([if (newUserFingerprint) { ... }]): it throws on fraud and falls
    through otherwise. *)
Definition fraudCheck (referrer : User) (newUserId : string)
    (newUserFingerprint : option Fingerprint) : M unit :=
  match newUserFingerprint with
  | None => ret tt
  | Some _ =>
      ((if present (fingerprint referrer)
           && isSameDevice (fingerprint referrer) newUserFingerprint (7 # 10)
        then throw FraudSameDevice else ret tt) ;;;
       existingUserWithSameFingerprint <-
         findMatchingFingerprint newUserFingerprint (7 # 10) ;;
       match existingUserWithSameFingerprint with
       | Some existing =>
           if negb (String.eqb (_id existing) newUserId)
           then throw FraudMultipleAccounts else ret tt
       | None => ret tt
       end)%store
  end.

(** [awardReferralPoints(referralCode, newUserId, newUserFingerprint = null)] *)
Definition awardReferralPoints (referralCode newUserId : string)
    (newUserFingerprint : option Fingerprint) : M AwardResult :=
  (found <- findByReferralCode referralCode ;;
   match found with
   | None => throw InvalidReferralCode
   | Some referrer =>
       found <- findById newUserId ;;
       match found with
       | None => throw NewUserNotFound
       | Some newUser =>
           fraudCheck referrer newUserId newUserFingerprint ;;;
           referrer <- addPoints referrer 100 ;;
           ret {| referrer := referrer;
                  newUser := newUser;
                  referrerPointsAwarded := 100;
                  newUserPointsAwarded := 0;
                  fraudCheckPassed := true |}
       end
   end)%store.

(** The points of the account with identity [id], read back from the
    store. *)
Definition pointsOf (id : string) (s : Store) : option N :=
  points <$> List.find (fun u => String.eqb (_id u) id) s.

(** ** Vocabulary of the statements *)

(** The fixed field set, in the order [isSameDevice] visits it. *)
Definition fixedFields : list string :=
  (criticalFields ++ ["timezone"; "language"])%list.

(** A field the code compares: truthy in both records. *)
Definition comparable (a b : Fingerprint) (field : string) : bool :=
  truthy (prop a field) && truthy (prop b field).

(** A compared field whose two values are strictly equal. *)
Definition matching (a b : Fingerprint) (field : string) : bool :=
  comparable a b field && strict_eq (prop a field) (prop b field).

(** Two fingerprints agree on the fixed field set. *)
Definition agreeOnFixed (a b : Fingerprint) : Prop :=
  forall field, In field fixedFields -> prop a field = prop b field.

(** Presence as the specification words it: a field is present when it
    is neither null nor empty, and a number, zero included, is present. *)
Definition specPresent (v : value) : bool :=
  match v with
  | JUndefined | JNull => false
  | JStr s => negb (String.eqb s "")
  | _ => true
  end.

(** The counters the specification's wording of presence would give. *)
Definition specCounters (a b : Fingerprint) : Counters :=
  let both f := specPresent (prop a f) && specPresent (prop b f) in
  {| totalChecks := length (List.filter both fixedFields);
     matchCount :=
       length (List.filter
                 (fun f => both f && strict_eq (prop a f) (prop b f))
                 fixedFields) |}.

(** The scan of [findMatchingFingerprint] as the specification words it:
    over the accounts whose fingerprint has a non-empty [visitorId]. *)
Definition specScanned (u : User) : bool :=
  match fingerprint u with
  | Some fp => truthy (prop fp "visitorId")
  | None => false
  end.

Definition specFindMatchingFingerprint (fingerprintData : option Fingerprint)
    (threshold : Q) (s : Store) : option User :=
  List.find (fun u => isSameDevice (fingerprint u) fingerprintData threshold)
            (List.filter specScanned s).

(** The double nearest to 0.7: the number the literal [0.7] of the call
    sites denotes. *)
Definition double_0_7 : Q := 3152519739159347 # 4503599627370496.

(** Identities are unique in a collection. *)
Definition uniqueIds (s : Store) : Prop := List.NoDup (List.map _id s).

(** ** Concrete fingerprints, accounts and stores *)

(** Two degenerate fingerprints: one with nothing in it, one whose only
    field is a touch-point count of 0. *)
Definition emptyFingerprint : Fingerprint := ∅.

Definition zeroTouchFingerprint : Fingerprint := {[ "maxTouchPoints" := JNum 0 ]}.

(** A fingerprint that holds all eight fixed fields, every string empty
    and every number 0. *)
Definition blankFingerprint : Fingerprint :=
  {[ "platform" := JStr "";
     "vendor" := JStr "";
     "userAgent" := JStr "";
     "screenResolution" := JStr "";
     "hardwareConcurrency" := JNum 0;
     "maxTouchPoints" := JNum 0;
     "timezone" := JStr "";
     "language" := JStr "" ]}.

(** An account whose stored [visitorId] is the empty string, and a
    candidate with the same platform. *)
Definition blankIdAccount : User :=
  {| _id := "64a000000000000000000001"; myReferralCode := "AB12CD34";
     points := 0;
     fingerprint :=
       Some {[ "visitorId" := JStr ""; "platform" := JStr "Win32" ]} |}.

Definition win32Candidate : Fingerprint := {[ "platform" := JStr "Win32" ]}.

Definition referrerFingerprint : Fingerprint :=
  {[ "platform" := JStr "Win32";
     "vendor" := JStr "Google Inc.";
     "userAgent" := JStr "UA-X";
     "screenResolution" := JStr "1920x1080";
     "hardwareConcurrency" := JNum 8;
     "maxTouchPoints" := JNum 0;
     "timezone" := JStr "Africa/Accra";
     "language" := JStr "en-US" ]}.

Definition otherDeviceFingerprint : Fingerprint :=
  {[ "platform" := JStr "MacIntel";
     "vendor" := JStr "Apple Inc.";
     "userAgent" := JStr "UA-Y";
     "screenResolution" := JStr "2560x1600";
     "hardwareConcurrency" := JNum 16;
     "maxTouchPoints" := JNum 0;
     "timezone" := JStr "Africa/Accra";
     "language" := JStr "en-US" ]}.

Definition referrerId : string := "64a000000000000000000010".
Definition newUserId : string := "64a000000000000000000011".

Definition referrerAccount : User :=
  {| _id := referrerId; myReferralCode := "K7QX2M9B"; points := 0;
     fingerprint := Some referrerFingerprint |}.

(** The new account, registered from another device. *)
Definition newAccount : User :=
  {| _id := newUserId; myReferralCode := "Z4T8W1PL"; points := 0;
     fingerprint := Some otherDeviceFingerprint |}.

(** The new account, registered from the referrer's device. *)
Definition sameDeviceAccount : User :=
  {| _id := newUserId; myReferralCode := "Z4T8W1PL"; points := 0;
     fingerprint := Some referrerFingerprint |}.

(** The new account, registered without a fingerprint. *)
Definition bareAccount : User :=
  {| _id := newUserId; myReferralCode := "Z4T8W1PL"; points := 0;
     fingerprint := None |}.

Definition scenarioStore : Store := [referrerAccount; newAccount].
Definition sameDeviceStore : Store := [referrerAccount; sameDeviceAccount].
Definition bareStore : Store := [referrerAccount; bareAccount].

(** An older account on the new user's device, with a visitor id. *)
Definition olderAccount : User :=
  {| _id := "64a000000000000000000005"; myReferralCode := "M3NB6V0C";
     points := 0;
     fingerprint :=
       Some (<["visitorId" := JStr "58d047a06034819c3deda39c1ab5446a"]>
               otherDeviceFingerprint) |}.

Definition crowdedStore : Store := [referrerAccount; olderAccount; newAccount].

(** An account that enters its own referral code. *)
Definition loneAccount : User :=
  {| _id := referrerId; myReferralCode := "K7QX2M9B"; points := 0;
     fingerprint := None |}.

Definition platformOnly : Fingerprint := {[ "platform" := JStr "Win32" ]}.
Definition languageOnly : Fingerprint := {[ "language" := JStr "en-US" ]}.

(** The referrer's fingerprint as a later probe reports it: other
    visitor id, confidence, components and timestamp. *)
Definition laterProbe : Fingerprint :=
  <["visitorId" := JStr "updated-visitor-id-456"]>
    (<["confidence" := JNum (4 # 5)]>
       (<["components" := JRef 1]>
          (<["timestamp" := JRef 2]> referrerFingerprint))).

(** The other device with a cookie flag, a do-not-track flag and a
    visitor id added. *)
Definition decoratedProbe : Fingerprint :=
  <["cookieEnabled" := JBool true]>
    (<["doNotTrack" := JNull]>
       (<["visitorId" := JStr "different-visitor-id-123"]>
          otherDeviceFingerprint)).

(** ** The other methods of the model and the routes that call them *)

(** *** Referral codes *)

Definition chars : string := "ABCDEFGHIJKLMNOPQRSTUVWXYZ0123456789".

(** [s.charAt(i)]: the character at index [i] as a string, the empty
    string when [i] is out of range. *)
Definition charAt (s : string) (i : Z) : string :=
  if (i <? 0)%Z then ""
  else match String.get (Z.to_nat i) s with
       | Some c => String c EmptyString
       | None => ""
       end.

(** The loop shared by the pre-save hook and by [generateReferralCode]:
    [for (let i = 0; i < 8; i++)
       result += chars.charAt(Math.floor(Math.random() * chars.length))].
    [random i] is the value the call of [Math.random()] in round [i]
    returns.  The product is taken exactly; for a double below 1 the
    rounded product stays below 36 as well. *)
Definition referralCodeLoop (random : nat -> Q) : string :=
  foldl (fun result i =>
           result ++
           charAt chars
             (Qfloor (random i * inject_Z (Z.of_nat (String.length chars)))))
        "" (seq 0 8).

Definition setReferralCode (code : string) (u : User) : User :=
  {| _id := _id u; myReferralCode := code;
     points := points u; fingerprint := fingerprint u |}.

(** The second pre-save hook:
    [if (this.isNew && !this.myReferralCode) this.myReferralCode = result].
    A document without a code holds the empty string. *)
Definition preSaveReferralCode (isNew : bool) (random : nat -> Q)
    (this : User) : User :=
  if isNew && negb (truthy (JStr (myReferralCode this)))
  then setReferralCode (referralCodeLoop random) this
  else this.

(** [generateReferralCode()]:
    [this.myReferralCode = result; return this.save()] *)
Definition generateReferralCode (this : User) (random : nat -> Q) : M User :=
  fun s =>
    let doc := setReferralCode (referralCodeLoop random) this in
    (inr doc, updateOne (_id doc) (setReferralCode (myReferralCode doc)) s).

(** The character class [[A-Z0-9]]. *)
Definition isUpperAlnum (c : Ascii.ascii) : bool :=
  let n := Ascii.nat_of_ascii c in
  ((65 <=? n) && (n <=? 90) || (48 <=? n) && (n <=? 57))%nat.

(** The validators the registration applies to [enteredReferralCode]
    once it is trimmed: [isLength({ min: 1, max: 50 })] and
    [matches(/^[A-Z0-9]+$/)]. *)
Definition enteredReferralCodeChecks (trimmed : string) : bool :=
  ((1 <=? String.length trimmed) && (String.length trimmed <=? 50))%nat
  && (negb (String.eqb trimmed "")
      && forallb isUpperAlnum (String.list_ascii_of_string trimmed)).

(** *** Lookups by fingerprint *)

(** [findByVisitorId(visitorId)]:
    [findOne({ 'fingerprint.visitorId': visitorId })] *)
Definition findByVisitorId (visitorId : string) : M (option User) :=
  findOne (fun u =>
             match fingerprint u with
             | Some fp => strict_eq (prop fp "visitorId") (JStr visitorId)
             | None => false
             end).

(** The fingerprint paths [findSimilarFingerprints] may put in its query,
    in the order it tests them. *)
Definition similarQueryFields : list string :=
  [ "platform"; "vendor"; "timezone"; "userAgent"; "screenResolution" ].

(** The query [findSimilarFingerprints] builds: one equality condition
    for each of these fields that is truthy in [fingerprintData]. *)
Definition similarQuery (fingerprintData : option Fingerprint)
    : list (string * value) :=
  match fingerprintData with
  | None => []
  | Some data =>
      List.flat_map
        (fun field =>
           if truthy (prop data field) then [(field, prop data field)] else [])
        similarQueryFields
  end.

(** A document satisfies a query on fingerprint paths when each named
    path holds the queried value. *)
Definition satisfies (query : list (string * value)) (u : User) : bool :=
  forallb (fun condition =>
             match fingerprint u with
             | Some fp => strict_eq (prop fp (fst condition)) (snd condition)
             | None => false
             end)
          query.

(** [findSimilarFingerprints(fingerprintData, threshold = 0.8)]: the
    threshold is not used by the body. *)
Definition findSimilarFingerprints (fingerprintData : option Fingerprint)
    (threshold : Q) : M (list User) :=
  find (satisfies (similarQuery fingerprintData)).

(** *** The earlier revision of [awardReferralPoints] *)

Module Revision1.

Record AwardResult : Type := mkAwardResult {
  referrer : User;
  newUser : User;
  referrerPointsAwarded : N;
  newUserPointsAwarded : N
}.

(** [awardReferralPoints(referralCode, newUserId)], before the
    fingerprint checks were added. *)
Definition awardReferralPoints (referralCode newUserId : string)
    : M AwardResult :=
  (found <- findByReferralCode referralCode ;;
   match found with
   | None => throw InvalidReferralCode
   | Some referrer =>
       found <- findById newUserId ;;
       match found with
       | None => throw NewUserNotFound
       | Some newUser =>
           referrer <- addPoints referrer 100 ;;
           ret {| referrer := referrer;
                  newUser := newUser;
                  referrerPointsAwarded := 100;
                  newUserPointsAwarded := 0 |}
       end
   end)%store.

End Revision1.

(** *** Routes *)

(** Truthiness of a request field that is a string or missing. *)
Definition truthyString (o : option string) : bool :=
  match o with
  | Some s => truthy (JStr s)
  | None => false
  end.




(** The [fraudChecks] object of [POST /auth/check-fingerprint-fraud]; the
    details hold the documents the response describes. *)
Record FraudChecks : Type := mkFraudChecks {
  sameDeviceReferral : bool;
  multipleAccounts : bool;
  details_existingUser : option User;
  details_referrer : option User
}.

Inductive FraudCheckResponse : Type :=
  | FingerprintRequired   (* status 400 *)
  | FraudReport (fraudDetected : bool) (checks : FraudChecks)
                (note : string).   (* status 200 *)

(** [POST /auth/check-fingerprint-fraud] *)
Definition checkFingerprintFraud (reqFingerprint : option Fingerprint)
    (referralCode : option string) : M FraudCheckResponse :=
  match reqFingerprint with
  | None => ret FingerprintRequired
  | Some _ =>
      (existingUserWithSameFingerprint <-
         findMatchingFingerprint reqFingerprint (7 # 10) ;;
       found <- match referralCode with
                | Some code =>
                    if truthyString referralCode
                    then findByReferralCode code else ret None
                | None => ret None
                end ;;
       let sameDevice :=
         match found with
         | Some referrer =>
             present (fingerprint referrer)
             && isSameDevice (fingerprint referrer) reqFingerprint (7 # 10)
         | None => false
         end in
       let fraudChecks :=
         {| sameDeviceReferral := sameDevice;
            multipleAccounts := present existingUserWithSameFingerprint;
            details_existingUser := existingUserWithSameFingerprint;
            details_referrer := if sameDevice then found else None |} in
       let hasFraud :=
         sameDeviceReferral fraudChecks || multipleAccounts fraudChecks in
       ret (FraudReport hasFraud fraudChecks
              (if hasFraud then "Fraud detected in fingerprint data"
               else "Fingerprint check passed")))%store
  end.

(** *** Fingerprint updates *)

Definition setFingerprint (stored : option Fingerprint) (u : User) : User :=
  {| _id := _id u; myReferralCode := myReferralCode u;
     points := points u; fingerprint := stored |}.


(** The answers of [PUT /auth/update-fingerprint] and of
    [GET /auth/fingerprint/:userId]. *)
Inductive UpdateFingerprintResponse : Type :=
  | UpdateRequired    (* status 400 *)
  | UpdateNotFound    (* status 404 *)
  | UpdateDone (id : string) (shown : option Fingerprint).   (* status 200 *)


Section FingerprintUpdates.

(** What the document holds once an object is assigned to its
    [fingerprint] path, from what it held and the object assigned: the
    casts and defaults are those of the schema library and are left
    open. *)
Variable assignFingerprint : option Fingerprint -> Fingerprint -> option Fingerprint.

(** [updateFingerprint(fingerprintData)]:
    [this.fingerprint = fingerprintData; return this.save()] *)
Definition updateFingerprint (this : User) (fingerprintData : Fingerprint)
    : M User :=
  fun s =>
    let doc :=
      setFingerprint (assignFingerprint (fingerprint this) fingerprintData)
                     this in
    (inr doc, updateOne (_id doc) (setFingerprint (fingerprint doc)) s).

(** [PUT /auth/update-fingerprint] *)
Definition updateFingerprintRoute (userId : option string)
    (reqFingerprint : option Fingerprint) : M UpdateFingerprintResponse :=
  match userId, reqFingerprint with
  | Some id, Some fingerprintData =>
      if truthyString userId then
        (user <- findById id ;;
         match user with
         | None => ret UpdateNotFound
         | Some user =>
             user <- updateFingerprint user fingerprintData ;;
             ret (UpdateDone (_id user) (fingerprint user))
         end)%store
      else ret UpdateRequired
  | _, _ => ret UpdateRequired
  end.

End FingerprintUpdates.


(** *** Vocabulary of the further statements *)

(** The result of a successful award on a referrer document [r] and a new
    user document [n]. *)
Definition awarded (r n : User) : AwardResult :=
  {| referrer := setPoints (points r + 100) r;
     newUser := n;
     referrerPointsAwarded := 100;
     newUserPointsAwarded := 0;
     fraudCheckPassed := true |}.

(** Two documents that differ at most in their points. *)
Definition sameButPoints (u v : User) : Prop :=
  _id u = _id v /\ myReferralCode u = myReferralCode v
  /\ fingerprint u = fingerprint v.

(** The points held by all accounts together. *)
Definition totalPoints (s : Store) : N :=
  foldr N.add 0%N (List.map points s).

(** Two outcomes of [awardReferralPoints] that are the same error, or two
    successes on documents that differ at most in their points. *)
Definition sameOutcome (x y : Error + AwardResult) : Prop :=
  match x, y with
  | inl e1, inl e2 => e1 = e2
  | inr a, inr b =>
      sameButPoints (referrer a) (referrer b)
      /\ sameButPoints (newUser a) (newUser b)
  | _, _ => False
  end.

(** A fingerprint none of whose fixed fields holds a truthy value. *)
Definition blankOnFixed (fp : Fingerprint) : Prop :=
  forall field, In field fixedFields -> truthy (prop fp field) = false.

(** *** Further concrete accounts and stores *)

(** The scenario's accounts after earlier awards. *)
Definition seasonedStore : Store :=
  [ setPoints 500 referrerAccount; setPoints 100 newAccount ].

(** The new account with a visitor id, stored ahead of an older account
    on the same device. *)
Definition newAccountWithVisitorId : User :=
  {| _id := newUserId; myReferralCode := "Z4T8W1PL"; points := 0;
     fingerprint :=
       Some (<["visitorId" := JStr "different-visitor-id-123"]>
               otherDeviceFingerprint) |}.

Definition maskedStore : Store :=
  [referrerAccount; newAccountWithVisitorId; olderAccount].

(** A referrer whose stored fingerprint is an empty object. *)
Definition blankReferrerAccount : User :=
  {| _id := referrerId; myReferralCode := "K7QX2M9B"; points := 0;
     fingerprint := Some emptyFingerprint |}.

Definition blankStore : Store := [blankReferrerAccount; bareAccount].

(** ** Properties of the similarity evaluator *)

Lemma counters_eq m t m' t' :
  m = m' -> t = t' ->
  {| matchCount := m; totalChecks := t |} = {| matchCount := m'; totalChecks := t' |}.
Proof. intros -> ->. reflexivity. Qed.

Section Evaluator.

Variables a b : Fingerprint.

Lemma truthy_falsy_values v :
  truthy v = false <->
  v = JUndefined \/ v = JNull \/ v = JBool false \/
  (exists q, v = JNum q /\ (q == 0)%Q) \/ v = JStr "".
Proof.
  destruct v as [| |[]|q|s|n]; simpl; split; intros H;
    try discriminate; auto 6;
    try (destruct H as [H|[H|[H|[[q' [H _]]|H]]]]; discriminate).
  - apply negb_false_iff, Qeq_bool_iff in H. right; right; right; left. eauto.
  - destruct H as [H|[H|[H|[[q' [H Hq]]|H]]]]; try discriminate.
    injection H as ->. apply negb_false_iff, Qeq_bool_iff, Hq.
  - apply negb_false_iff, String.eqb_eq in H. subst. auto 6.
  - destruct H as [H|[H|[H|[[q' [H Hq]]|H]]]]; try discriminate.
    injection H as ->. reflexivity.
Qed.

Lemma strict_eq_refl v : strict_eq v v = true.
Proof.
  destruct v as [| |[]|q|s|n]; simpl; auto.
  - apply Qeq_bool_iff. reflexivity.
  - apply String.eqb_refl.
  - apply N.eqb_refl.
Qed.

(** One step of the scan adds one to [totalChecks] for a comparable field,
    one to [matchCount] for a matching one, and nothing otherwise. *)
Lemma checkField_contribution c field :
  checkField a b c field =
  {| totalChecks := totalChecks c + (if comparable a b field then 1 else 0);
     matchCount := matchCount c + (if matching a b field then 1 else 0) |}.
Proof.
  unfold checkField, matching, comparable.
  destruct c as [m t]; simpl.
  destruct (truthy (prop a field) && truthy (prop b field)); simpl.
  - destruct (strict_eq (prop a field) (prop b field)); apply counters_eq; lia.
  - apply counters_eq; lia.
Qed.

Lemma foldl_checkField fields : forall c,
  foldl (checkField a b) c fields =
  {| totalChecks := totalChecks c + length (List.filter (comparable a b) fields);
     matchCount := matchCount c + length (List.filter (matching a b) fields) |}.
Proof.
  induction fields as [|f fields IH]; intros c; simpl.
  - destruct c; simpl; apply counters_eq; lia.
  - rewrite IH, checkField_contribution; simpl.
    destruct (comparable a b f), (matching a b f); simpl; apply counters_eq; lia.
Qed.

Lemma countChecks_foldl :
  countChecks a b =
  foldl (checkField a b) {| matchCount := 0; totalChecks := 0 |} fixedFields.
Proof. unfold countChecks, fixedFields. rewrite foldl_app. reflexivity. Qed.

Lemma countChecks_filter :
  countChecks a b =
  {| totalChecks := length (List.filter (comparable a b) fixedFields);
     matchCount := length (List.filter (matching a b) fixedFields) |}.
Proof. rewrite countChecks_foldl, foldl_checkField. reflexivity. Qed.

Lemma matching_le_comparable fields :
  (length (List.filter (matching a b) fields)
   <= length (List.filter (comparable a b) fields))%nat.
Proof.
  induction fields as [|f l IH]; simpl; [lia|].
  unfold matching at 1.
  destruct (comparable a b f); simpl; [|exact IH].
  destruct (strict_eq (prop a f) (prop b f)); simpl; lia.
Qed.

Lemma matchCount_le_totalChecks :
  (matchCount (countChecks a b) <= totalChecks (countChecks a b))%nat.
Proof. rewrite countChecks_filter. apply matching_le_comparable. Qed.

End Evaluator.

Lemma filter_none {A} (p : A -> bool) (l : list A) :
  (forall x, In x l -> p x = false) -> List.filter p l = [].
Proof.
  induction l as [|x l IH]; intros H; simpl; [reflexivity|].
  rewrite (H x) by (left; reflexivity).
  apply IH. intros y Hy. apply H. right; exact Hy.
Qed.

Lemma filter_some_length {A} (p : A -> bool) (l : list A) x :
  In x l -> p x = true -> (0 < length (List.filter p l))%nat.
Proof.
  induction l as [|y l IH]; simpl; [tauto|].
  intros [->|Hin] Hp.
  - rewrite Hp. simpl. lia.
  - destruct (p y); simpl; [lia|auto].
Qed.

Lemma score_no_checks (a b : Fingerprint) :
  totalChecks (countChecks a b) = 0%nat -> similarityScore a b = 0%Q.
Proof. unfold similarityScore. intros ->. reflexivity. Qed.

Lemma score_all_match (a b : Fingerprint) :
  (0 < totalChecks (countChecks a b))%nat ->
  matchCount (countChecks a b) = totalChecks (countChecks a b) ->
  (similarityScore a b == 1)%Q.
Proof.
  unfold similarityScore. intros Hpos ->.
  destruct (Nat.ltb_spec 0 (totalChecks (countChecks a b))) as [_|Hle]; [|lia].
  apply Qmult_inv_r. intros H.
  assert (Hz : Z.of_nat (totalChecks (countChecks a b)) = 0%Z).
  { unfold Qeq, inject_Z in H. simpl in H. lia. }
  lia.
Qed.

(** Agreement on the fixed fields makes the two scans count alike. *)
Lemma countChecks_agree (a a' b b' : Fingerprint) :
  agreeOnFixed a a' -> agreeOnFixed b b' ->
  countChecks a b = countChecks a' b'.
Proof.
  intros Ha Hb. rewrite !countChecks_filter.
  apply counters_eq; f_equal; apply List.filter_ext_in; intros f Hf;
    unfold matching, comparable; rewrite (Ha f Hf), (Hb f Hf); reflexivity.
Qed.

(** With at most eight checks no quotient falls between the double
    nearest to 0.7 and 7/10, so the verdict at the literal [0.7] is the
    verdict at 7/10. *)
Lemma quotient_clear_of_threshold (m c : nat) :
  (m < 9)%nat -> (c < 9)%nat ->
  Qle_bool double_0_7 (inject_Z (Z.of_nat m) / inject_Z (Z.of_nat c))
  = Qle_bool (7 # 10) (inject_Z (Z.of_nat m) / inject_Z (Z.of_nat c)).
Proof.
  intros Hm Hc.
  do 9 (destruct c as [|c];
        [do 9 (destruct m as [|m]; [vm_compute; reflexivity|]); lia|]).
  lia.
Qed.

Lemma totalChecks_le_8 (a b : Fingerprint) :
  (totalChecks (countChecks a b) <= 8)%nat.
Proof.
  rewrite countChecks_filter. cbn [totalChecks].
  apply (List.filter_length_le (comparable a b) fixedFields).
Qed.

Lemma isSameDevice_literal_threshold (fingerprint1 fingerprint2 : option Fingerprint) :
  isSameDevice fingerprint1 fingerprint2 double_0_7
  = isSameDevice fingerprint1 fingerprint2 (7 # 10).
Proof.
  destruct fingerprint1 as [a|], fingerprint2 as [b|]; try reflexivity.
  simpl. unfold similarityScore.
  pose proof (totalChecks_le_8 a b) as Ht.
  pose proof (matchCount_le_totalChecks a b) as Hm.
  destruct (0 <? totalChecks (countChecks a b))%nat; [|reflexivity].
  apply quotient_clear_of_threshold; lia.
Qed.

(** Strict equality is case-sensitive on strings and numeric on numbers,
    and never holds across types. *)
Lemma strict_eq_strings s t : strict_eq (JStr s) (JStr t) = true <-> s = t.
Proof. apply String.eqb_eq. Qed.

Lemma strict_eq_numbers p q : strict_eq (JNum p) (JNum q) = true <-> (p == q)%Q.
Proof. apply Qeq_bool_iff. Qed.

Example strict_eq_case_sensitive :
  strict_eq (JStr "win32") (JStr "Win32") = false /\
  strict_eq (JStr "8") (JNum 8) = false.
Proof. split; reflexivity. Qed.

(** C2, as first stated, fails: [maxTouchPoints] holds 0 in both records,
    which the specification's notion of presence counts as one
    comparison, while [isSameDevice] counts none. *)
Lemma zero_field_not_counted :
  prop zeroTouchFingerprint "maxTouchPoints" = JNum 0 /\
  totalChecks (specCounters zeroTouchFingerprint zeroTouchFingerprint) = 1%nat /\
  totalChecks (countChecks zeroTouchFingerprint zeroTouchFingerprint) = 0%nat.
Proof. repeat split; vm_compute; reflexivity. Qed.

(** C2 (amended): the scan visits the eight fixed fields, each once.  A
    field whose value is truthy in both records (not undefined, null,
    false, the number 0 or the empty string) adds one to [totalChecks],
    and one to [matchCount] exactly when the two values are strictly
    equal; a field that is falsy in either record adds to neither; a
    numeric field holding 0 is therefore skipped. *)
Theorem field_contribution (a b : Fingerprint) :
  fixedFields =
    [ "platform"; "vendor"; "userAgent"; "screenResolution";
      "hardwareConcurrency"; "maxTouchPoints"; "timezone"; "language" ] /\
  (forall c field,
     totalChecks (checkField a b c field)
       = (totalChecks c + if comparable a b field then 1 else 0)%nat /\
     matchCount (checkField a b c field)
       = (matchCount c + if matching a b field then 1 else 0)%nat) /\
  totalChecks (countChecks a b)
    = length (List.filter (comparable a b) fixedFields) /\
  matchCount (countChecks a b)
    = length (List.filter (matching a b) fixedFields) /\
  (forall field,
     comparable a b field = false <->
     truthy (prop a field) = false \/ truthy (prop b field) = false) /\
  (forall v,
     truthy v = false <->
     v = JUndefined \/ v = JNull \/ v = JBool false \/
     (exists q, v = JNum q /\ (q == 0)%Q) \/ v = JStr "") /\
  (forall s t, strict_eq (JStr s) (JStr t) = true <-> s = t) /\
  (forall p q, strict_eq (JNum p) (JNum q) = true <-> (p == q)%Q).
Proof.
  split; [reflexivity|].
  split; [intros c field; rewrite checkField_contribution; split; reflexivity|].
  rewrite countChecks_filter. cbn [totalChecks matchCount].
  split; [reflexivity|]. split; [reflexivity|].
  split; [intros field; unfold comparable; apply andb_false_iff|].
  split; [exact truthy_falsy_values|].
  split; [exact strict_eq_strings|exact strict_eq_numbers].
Qed.

(** C3, as first stated, fails at threshold 0: two fingerprints without
    any comparable field score 0, and [0 >= 0] holds. *)
Lemma no_comparable_threshold_zero :
  (forall field, In field fixedFields ->
     comparable emptyFingerprint emptyFingerprint field = false) /\
  (0 <= 0 /\ 0 <= 1)%Q /\
  isSameDevice (Some emptyFingerprint) (Some emptyFingerprint) 0 = true.
Proof.
  split; [|split; [split; discriminate|vm_compute; reflexivity]].
  intros field _. reflexivity.
Qed.

(** C3 (amended): for two fingerprints with no comparable field and every
    threshold above 0 (so every threshold in (0,1]), [isSameDevice]
    returns false. *)
Theorem no_comparable_not_same (a b : Fingerprint) (threshold : Q) :
  (forall field, In field fixedFields -> comparable a b field = false) ->
  (0 < threshold)%Q ->
  isSameDevice (Some a) (Some b) threshold = false.
Proof.
  intros Hnone Hpos. simpl.
  rewrite score_no_checks.
  - apply not_true_iff_false. rewrite Qle_bool_iff.
    apply Qlt_not_le, Hpos.
  - rewrite countChecks_filter. cbn [totalChecks].
    rewrite (filter_none _ _ Hnone). reflexivity.
Qed.

(** C8, as first stated, fails: two empty fingerprints are field-wise
    identical, and so are two fingerprints that hold the eight fields with
    empty strings and zeros; 0.7 is at most 1, and both verdicts are
    false. *)
Lemma identical_empty_not_same :
  agreeOnFixed emptyFingerprint emptyFingerprint /\
  agreeOnFixed blankFingerprint blankFingerprint /\
  (7 # 10 <= 1)%Q /\
  isSameDevice (Some emptyFingerprint) (Some emptyFingerprint) (7 # 10) = false /\
  isSameDevice (Some blankFingerprint) (Some blankFingerprint) (7 # 10) = false.
Proof.
  split; [intros field _; reflexivity|].
  split; [intros field _; reflexivity|].
  split; [discriminate|split; vm_compute; reflexivity].
Qed.

(** C8 (amended): two fingerprints that are identical on the eight fixed
    fields, at least one of which holds a truthy value, are the same
    device for every threshold up to 1. *)
Theorem identical_same_device (a b : Fingerprint) (threshold : Q) :
  agreeOnFixed a b ->
  (exists field, In field fixedFields /\ truthy (prop a field) = true) ->
  (threshold <= 1)%Q ->
  isSameDevice (Some a) (Some b) threshold = true.
Proof.
  intros Hagree [field [Hin Htruthy]] Hle. simpl.
  apply Qle_bool_iff.
  rewrite score_all_match; [exact Hle| |].
  - rewrite countChecks_filter. cbn [totalChecks].
    apply (filter_some_length _ _ field Hin).
    unfold comparable. rewrite <- (Hagree field Hin), Htruthy. reflexivity.
  - rewrite countChecks_filter. cbn [totalChecks matchCount]. f_equal.
    apply List.filter_ext_in. intros f Hf.
    unfold matching. rewrite (Hagree f Hf), strict_eq_refl.
    apply andb_true_r.
Qed.

(** C9: the verdict of [isSameDevice] is a function of the eight fixed
    fields: two runs on pairs that agree on those fields, whatever
    [visitorId], [confidence], [components], [cookieEnabled], [doNotTrack],
    [timestamp] or any other property hold, return the same verdict. *)
Theorem verdict_depends_on_fixed_fields
    (a a' b b' : Fingerprint) (threshold : Q) :
  agreeOnFixed a a' -> agreeOnFixed b b' ->
  isSameDevice (Some a) (Some b) threshold
  = isSameDevice (Some a') (Some b') threshold.
Proof.
  intros Ha Hb. simpl. unfold similarityScore.
  rewrite (countChecks_agree a a' b b' Ha Hb). reflexivity.
Qed.

(** ** Properties of the lookup *)

(** The first element of the filtered list that passes a test, described
    on the unfiltered list. *)
Lemma find_filter_first {A} (p q : A -> bool) (l : list A) :
  match List.find q (List.filter p l) with
  | Some x =>
      exists before after,
        l = (before ++ x :: after)%list /\ p x = true /\ q x = true /\
        forall y, In y before -> p y = true -> q y = false
  | None => forall y, In y l -> p y = true -> q y = false
  end.
Proof.
  induction l as [|x l IH]; simpl.
  - intros y [].
  - destruct (p x) eqn:Hp; simpl.
    + destruct (q x) eqn:Hq.
      * exists [], l. repeat split; auto. intros y [].
      * destruct (List.find q (List.filter p l)) as [z|].
        -- destruct IH as (before & after & -> & Hpz & Hqz & Hfirst).
           exists (x :: before), after. repeat split; auto.
           intros y [<-|Hy] Hpy; auto.
        -- intros y [<-|Hy] Hpy; auto.
    + destruct (List.find q (List.filter p l)) as [z|].
      * destruct IH as (before & after & -> & Hpz & Hqz & Hfirst).
        exists (x :: before), after. repeat split; auto.
        intros y [<-|Hy] Hpy; [congruence|auto].
      * intros y [<-|Hy] Hpy; [congruence|auto].
Qed.

(** The guard [user.fingerprint &&] of the loop adds nothing to
    [isSameDevice], which already rejects an absent fingerprint. *)
Lemma matchesFingerprint_isSameDevice fingerprintData threshold user :
  matchesFingerprint fingerprintData threshold user
  = isSameDevice (fingerprint user) fingerprintData threshold.
Proof.
  unfold matchesFingerprint. destruct (fingerprint user); reflexivity.
Qed.

Lemma findMatchingFingerprint_run fingerprintData threshold s :
  findMatchingFingerprint fingerprintData threshold s
  = (inr (List.find (matchesFingerprint fingerprintData threshold)
                    (List.filter visitorIdExists s)), s).
Proof. reflexivity. Qed.

(** C5, as first stated, fails: the only account of the store has an
    empty [visitorId], so a scan of the accounts with a non-empty
    [visitorId] finds nothing, while [findMatchingFingerprint] returns
    that account. *)
Lemma blank_visitorId_is_scanned :
  specScanned blankIdAccount = false /\
  specFindMatchingFingerprint (Some win32Candidate) (7 # 10) [blankIdAccount]
    = None /\
  findMatchingFingerprint (Some win32Candidate) (7 # 10) [blankIdAccount]
    = (inr (Some blankIdAccount), [blankIdAccount]).
Proof. repeat split; vm_compute; reflexivity. Qed.

(** C5 (amended): [findMatchingFingerprint] scans exactly the accounts
    whose fingerprint has a [visitorId] field (of any value, the empty
    string included), leaves the store as it is, returns the first account
    in store order whose stored fingerprint satisfies
    [isSameDevice(stored, candidate, threshold)], and returns none when
    the store is empty or no scanned account matches. *)
Theorem findMatchingFingerprint_first_match
    (fingerprintData : option Fingerprint) (threshold : Q) (s : Store) :
  findMatchingFingerprint fingerprintData threshold [] = (inr None, []) /\
  exists r,
    findMatchingFingerprint fingerprintData threshold s = (inr r, s) /\
    match r with
    | Some u =>
        exists before after,
          s = (before ++ u :: after)%list /\
          visitorIdExists u = true /\
          isSameDevice (fingerprint u) fingerprintData threshold = true /\
          forall v, In v before -> visitorIdExists v = true ->
            isSameDevice (fingerprint v) fingerprintData threshold = false
    | None =>
        forall v, In v s -> visitorIdExists v = true ->
          isSameDevice (fingerprint v) fingerprintData threshold = false
    end.
Proof.
  split; [reflexivity|].
  rewrite findMatchingFingerprint_run. eexists; split; [reflexivity|].
  pose proof (find_filter_first visitorIdExists
                (matchesFingerprint fingerprintData threshold) s) as H.
  destruct (List.find _ _) as [u|].
  - destruct H as (before & after & Hs & Hp & Hq & Hfirst).
    exists before, after. rewrite <- matchesFingerprint_isSameDevice.
    repeat split; auto.
    intros v Hv Hpv. rewrite <- matchesFingerprint_isSameDevice. auto.
  - intros v Hv Hpv. rewrite <- matchesFingerprint_isSameDevice. auto.
Qed.

(** ** Properties of the points transaction *)

Lemma find_In {A} (p : A -> bool) (l : list A) x :
  List.find p l = Some x -> In x l /\ p x = true.
Proof. apply List.find_some. Qed.

(** With unique identities, a document of the store is the one its own
    identity resolves to. *)
Lemma find_by_id_unique (s : Store) (u : User) :
  uniqueIds s -> In u s ->
  List.find (fun v => String.eqb (_id v) (_id u)) s = Some u.
Proof.
  unfold uniqueIds. induction s as [|v s IH]; simpl; [tauto|].
  intros Hnd Hin. apply List.NoDup_cons_iff in Hnd as [Hnotin Hnd].
  destruct Hin as [->|Hin].
  - rewrite String.eqb_refl. reflexivity.
  - destruct (String.eqb_spec (_id v) (_id u)) as [Heq|Hne]; [|auto].
    exfalso. apply Hnotin. rewrite Heq. apply List.in_map, Hin.
Qed.

Lemma pointsOf_unique (s : Store) (u : User) :
  uniqueIds s -> In u s -> pointsOf (_id u) s = Some (points u).
Proof.
  intros Hu Hin. unfold pointsOf. rewrite (find_by_id_unique s u Hu Hin).
  reflexivity.
Qed.

(** Reading back the identity that was written. *)
Lemma pointsOf_updateOne_same (id : string) (p : N) (s : Store) :
  (exists u, In u s /\ _id u = id) ->
  pointsOf id (updateOne id (setPoints p) s) = Some p.
Proof.
  unfold pointsOf. induction s as [|v s IH]; simpl.
  - intros [u [[] _]].
  - intros [u [Hin Hid]].
    destruct (String.eqb_spec (_id v) id) as [Heq|Hne]; simpl.
    + rewrite Heq, String.eqb_refl. reflexivity.
    + destruct (String.eqb_spec (_id v) id) as [|_]; [contradiction|].
      apply IH. destruct Hin as [->|Hin]; [contradiction|eauto].
Qed.

(** Reading back any other identity. *)
Lemma pointsOf_updateOne_other (id id' : string) (p : N) (s : Store) :
  id' <> id ->
  pointsOf id' (updateOne id (setPoints p) s) = pointsOf id' s.
Proof.
  intros Hne. unfold pointsOf. induction s as [|v s IH]; simpl; [reflexivity|].
  destruct (String.eqb_spec (_id v) id) as [Heq|Hne']; simpl.
  - destruct (String.eqb_spec (_id v) id') as [Heq'|_]; [congruence|reflexivity].
  - destruct (String.eqb (_id v) id'); [reflexivity|exact IH].
Qed.

(** The fraud block only reads the store. *)
Lemma fraudCheck_store referrer newUserId newUserFingerprint (s : Store) :
  snd (fraudCheck referrer newUserId newUserFingerprint s) = s.
Proof.
  unfold fraudCheck. destruct newUserFingerprint as [fp|]; [|reflexivity].
  unfold bind.
  destruct (present (fingerprint referrer) && isSameDevice _ _ _);
    [reflexivity|]. simpl.
  destruct (List.find _ _) as [existing|]; [|reflexivity].
  destruct (negb _); reflexivity.
Qed.

(** What the fraud block answers: the self-referral test comes first,
    then the lookup of another account on the same device. *)
Lemma fraudCheck_run referrer newUserId (fp : Fingerprint) (s : Store) :
  fst (fraudCheck referrer newUserId (Some fp) s) =
  if present (fingerprint referrer)
     && isSameDevice (fingerprint referrer) (Some fp) (7 # 10)
  then inl FraudSameDevice
  else
    match fst (findMatchingFingerprint (Some fp) (7 # 10) s) with
    | inr (Some existing) =>
        if negb (String.eqb (_id existing) newUserId)
        then inl FraudMultipleAccounts else inr tt
    | _ => inr tt
    end.
Proof.
  unfold fraudCheck, bind.
  destruct (present (fingerprint referrer) && isSameDevice _ _ _);
    [reflexivity|]. simpl.
  destruct (List.find _ _) as [existing|]; [|reflexivity].
  destruct (negb _); reflexivity.
Qed.

(** The transaction, once both accounts are resolved. *)
Lemma awardReferralPoints_resolved
    referralCode newUserId newUserFingerprint (s : Store) r n :
  findByReferralCode referralCode s = (inr (Some r), s) ->
  findById newUserId s = (inr (Some n), s) ->
  awardReferralPoints referralCode newUserId newUserFingerprint s =
  match fst (fraudCheck r newUserId newUserFingerprint s) with
  | inl e => (inl e, s)
  | inr _ =>
      (inr {| referrer := setPoints (points r + 100) r;
              newUser := n;
              referrerPointsAwarded := 100;
              newUserPointsAwarded := 0;
              fraudCheckPassed := true |},
       updateOne (_id r) (setPoints (points r + 100)) s)
  end.
Proof.
  intros Hr Hn. unfold awardReferralPoints, bind. rewrite Hr, Hn.
  pose proof (fraudCheck_store r newUserId newUserFingerprint s) as Hs.
  destruct (fraudCheck r newUserId newUserFingerprint s) as [[e|[]] s'];
    simpl in Hs; subst s'; reflexivity.
Qed.

Lemma findByReferralCode_In referralCode (s : Store) r :
  findByReferralCode referralCode s = (inr (Some r), s) ->
  In r s /\ myReferralCode r = referralCode.
Proof.
  unfold findByReferralCode, findOne. intros H. injection H as H.
  apply find_In in H as [Hin Heq]. apply String.eqb_eq in Heq. auto.
Qed.

Lemma findById_In id (s : Store) n :
  findById id s = (inr (Some n), s) -> In n s /\ _id n = id.
Proof.
  unfold findById, findOne. intros H. injection H as H.
  apply find_In in H as [Hin Heq]. apply String.eqb_eq in Heq. auto.
Qed.

(** C1: when the referral code resolves to a referrer with a stored
    fingerprint, the new user's id resolves to an account, and
    [isSameDevice(referrer.fingerprint, newUserFingerprint, 0.7)] is true,
    [awardReferralPoints] fails with the self-referral fraud error and the
    store it leaves is the store it was given: no points were added. *)
Theorem self_referral_rejected
    (referralCode newUserId : string) (stored newUserFingerprint : Fingerprint)
    (s : Store) (r n : User) :
  findByReferralCode referralCode s = (inr (Some r), s) ->
  findById newUserId s = (inr (Some n), s) ->
  fingerprint r = Some stored ->
  isSameDevice (Some stored) (Some newUserFingerprint) (7 # 10) = true ->
  awardReferralPoints referralCode newUserId (Some newUserFingerprint) s
    = (inl FraudSameDevice, s) /\
  pointsOf (_id r) s = pointsOf (_id r)
    (snd (awardReferralPoints referralCode newUserId (Some newUserFingerprint) s)).
Proof.
  intros Hr Hn Hfp Hsame.
  assert (Hrun : awardReferralPoints referralCode newUserId
                   (Some newUserFingerprint) s = (inl FraudSameDevice, s)).
  { rewrite (awardReferralPoints_resolved _ _ _ s r n Hr Hn).
    rewrite fraudCheck_run, Hfp, Hsame. reflexivity. }
  rewrite Hrun. split; reflexivity.
Qed.

Lemma self_referral_rejected_witness :
  findByReferralCode "K7QX2M9B" sameDeviceStore
    = (inr (Some referrerAccount), sameDeviceStore) /\
  isSameDevice (Some referrerFingerprint) (Some referrerFingerprint) (7 # 10)
    = true /\
  awardReferralPoints "K7QX2M9B" newUserId (Some referrerFingerprint)
    sameDeviceStore = (inl FraudSameDevice, sameDeviceStore).
Proof.
  split; [reflexivity|]. split; [vm_compute; reflexivity|].
  apply (self_referral_rejected "K7QX2M9B" newUserId referrerFingerprint
           referrerFingerprint sameDeviceStore referrerAccount
           sameDeviceAccount); vm_compute; reflexivity.
Defined.

(** C10: whenever [awardReferralPoints] fails, whichever of the four
    errors it raises, the store it leaves is the store it was given, so no
    account's points counter has changed. *)
Theorem failure_leaves_store
    (referralCode newUserId : string) (newUserFingerprint : option Fingerprint)
    (s s' : Store) (e : Error) :
  awardReferralPoints referralCode newUserId newUserFingerprint s = (inl e, s') ->
  s' = s /\ forall id, pointsOf id s' = pointsOf id s.
Proof.
  intros H.
  assert (Hs : s' = s); [|subst s'; split; reflexivity].
  destruct (List.find (fun u => String.eqb (myReferralCode u) referralCode) s)
    as [r|] eqn:Hr.
  - destruct (List.find (fun u => String.eqb (_id u) newUserId) s)
      as [n|] eqn:Hn.
    + rewrite (awardReferralPoints_resolved _ _ _ s r n) in H.
      * destruct (fst (fraudCheck r newUserId newUserFingerprint s));
          [congruence|discriminate].
      * unfold findByReferralCode, findOne. rewrite Hr. reflexivity.
      * unfold findById, findOne. rewrite Hn. reflexivity.
    + unfold awardReferralPoints, bind, findByReferralCode, findById, findOne
        in H. rewrite Hr, Hn in H. unfold throw in H. congruence.
  - unfold awardReferralPoints, bind, findByReferralCode, findOne in H.
    rewrite Hr in H. unfold throw in H. congruence.
Qed.

Lemma failure_leaves_store_witness :
  awardReferralPoints "NOSUCHCD" newUserId None scenarioStore
    = (inl InvalidReferralCode, scenarioStore) /\
  scenarioStore = scenarioStore /\
  forall id, pointsOf id scenarioStore = pointsOf id scenarioStore.
Proof.
  split; [reflexivity|].
  apply (failure_leaves_store "NOSUCHCD" newUserId None scenarioStore
           scenarioStore InvalidReferralCode).
  reflexivity.
Defined.

(** Each of the four error paths is taken by some call, and none of them
    changes the store. *)
Example error_invalid_code :
  awardReferralPoints "NOSUCHCD" newUserId (Some otherDeviceFingerprint)
    scenarioStore = (inl InvalidReferralCode, scenarioStore).
Proof. reflexivity. Qed.

Example error_new_user_not_found :
  awardReferralPoints "K7QX2M9B" "64a0000000000000000000ff"
    (Some otherDeviceFingerprint) scenarioStore
  = (inl NewUserNotFound, scenarioStore).
Proof. reflexivity. Qed.

Example error_same_device :
  awardReferralPoints "K7QX2M9B" newUserId (Some referrerFingerprint)
    sameDeviceStore = (inl FraudSameDevice, sameDeviceStore).
Proof. vm_compute. reflexivity. Qed.

Example error_multiple_accounts :
  awardReferralPoints "K7QX2M9B" newUserId (Some otherDeviceFingerprint)
    crowdedStore = (inl FraudMultipleAccounts, crowdedStore).
Proof. vm_compute. reflexivity. Qed.

(** C7: without a new-user fingerprint the fraud block runs no check and
    lets the referral through; with a referral code that resolves and a
    new user that exists, [awardReferralPoints] succeeds and the
    referrer's stored points are the points it had plus 100. *)
Theorem no_fingerprint_awards
    (referralCode newUserId : string) (s : Store) (r n : User) :
  findByReferralCode referralCode s = (inr (Some r), s) ->
  findById newUserId s = (inr (Some n), s) ->
  fraudCheck r newUserId None s = (inr tt, s) /\
  exists res s',
    awardReferralPoints referralCode newUserId None s = (inr res, s') /\
    referrerPointsAwarded res = 100%N /\
    fraudCheckPassed res = true /\
    points (referrer res) = (points r + 100)%N /\
    pointsOf (_id r) s' = Some (points r + 100)%N /\
    (uniqueIds s -> pointsOf (_id r) s = Some (points r)).
Proof.
  intros Hr Hn. split; [reflexivity|].
  rewrite (awardReferralPoints_resolved _ _ _ s r n Hr Hn). simpl.
  destruct (findByReferralCode_In _ _ _ Hr) as [Hin _].
  eexists _, _. split; [reflexivity|]. simpl.
  repeat split.
  - apply pointsOf_updateOne_same. eauto.
  - intros Hu. apply pointsOf_unique; assumption.
Qed.

Lemma no_fingerprint_awards_witness :
  pointsOf referrerId bareStore = Some 0%N /\
  fraudCheck referrerAccount newUserId None bareStore = (inr tt, bareStore) /\
  exists res s',
    awardReferralPoints "K7QX2M9B" newUserId None bareStore = (inr res, s') /\
    referrerPointsAwarded res = 100%N /\
    pointsOf referrerId s' = Some 100%N.
Proof.
  split; [reflexivity|].
  destruct (no_fingerprint_awards "K7QX2M9B" newUserId bareStore
              referrerAccount bareAccount eq_refl eq_refl)
    as (Hcheck & res & s' & Hrun & Hra & _ & _ & Hpts & _).
  split; [exact Hcheck|]. exists res, s'. repeat split; assumption.
Defined.

(** C6, as first stated, fails when the new user's id is the referrer's
    own: the code is valid, the new user exists, the fraud checks pass
    and the call succeeds, and the new user's points are 100, not 0. *)
Lemma own_code_credits_new_user :
  pointsOf referrerId [loneAccount] = Some 0%N /\
  fst (fraudCheck loneAccount referrerId None [loneAccount]) = inr tt /\
  exists res s',
    awardReferralPoints "K7QX2M9B" referrerId None [loneAccount]
      = (inr res, s') /\
    _id (newUser res) = referrerId /\
    pointsOf referrerId s' = Some 100%N.
Proof.
  split; [reflexivity|]. split; [reflexivity|].
  eexists _, _. split; [reflexivity|]. split; reflexivity.
Qed.

(** C6 (amended): for a referral code that resolves, a new user that
    exists and is another account than the referrer, and fraud checks
    that pass, [awardReferralPoints] adds exactly 100 to the referrer's
    stored points, leaves the points of the new user and of every other
    account as they were, and returns [referrerPointsAwarded = 100] and
    [newUserPointsAwarded = 0]. *)
Theorem award_credits_referrer_only
    (referralCode newUserId : string) (newUserFingerprint : option Fingerprint)
    (s : Store) (r n : User) :
  findByReferralCode referralCode s = (inr (Some r), s) ->
  findById newUserId s = (inr (Some n), s) ->
  fst (fraudCheck r newUserId newUserFingerprint s) = inr tt ->
  _id r <> newUserId ->
  exists res s',
    awardReferralPoints referralCode newUserId newUserFingerprint s
      = (inr res, s') /\
    referrerPointsAwarded res = 100%N /\
    newUserPointsAwarded res = 0%N /\
    fraudCheckPassed res = true /\
    pointsOf (_id r) s' = Some (points r + 100)%N /\
    (uniqueIds s -> pointsOf (_id r) s = Some (points r)) /\
    pointsOf newUserId s = Some (points n) /\
    pointsOf newUserId s' = Some (points n) /\
    points (newUser res) = points n /\
    (forall id, id <> _id r -> pointsOf id s' = pointsOf id s).
Proof.
  intros Hr Hn Hpass Hne.
  rewrite (awardReferralPoints_resolved _ _ _ s r n Hr Hn), Hpass.
  destruct (findByReferralCode_In _ _ _ Hr) as [Hinr _].
  assert (Hold : pointsOf newUserId s = Some (points n)).
  { unfold findById, findOne in Hn. injection Hn as Hn.
    unfold pointsOf. rewrite Hn. reflexivity. }
  eexists _, _. split; [reflexivity|]. simpl.
  split; [reflexivity|]. split; [reflexivity|]. split; [reflexivity|].
  split; [apply pointsOf_updateOne_same; eauto|].
  split; [intros Hu; apply pointsOf_unique; assumption|].
  split; [exact Hold|].
  split; [rewrite pointsOf_updateOne_other by congruence; exact Hold|].
  split; [reflexivity|].
  intros id Hid. apply pointsOf_updateOne_other, Hid.
Qed.

Lemma award_credits_referrer_only_witness :
  fst (fraudCheck referrerAccount newUserId (Some otherDeviceFingerprint)
         scenarioStore) = inr tt /\
  referrerId <> newUserId /\
  exists res s',
    awardReferralPoints "K7QX2M9B" newUserId (Some otherDeviceFingerprint)
      scenarioStore = (inr res, s') /\
    referrerPointsAwarded res = 100%N /\
    newUserPointsAwarded res = 0%N /\
    pointsOf referrerId s' = Some 100%N /\
    pointsOf newUserId s' = Some 0%N.
Proof.
  assert (Hpass : fst (fraudCheck referrerAccount newUserId
                         (Some otherDeviceFingerprint) scenarioStore) = inr tt)
    by (vm_compute; reflexivity).
  assert (Hne : referrerId <> newUserId) by discriminate.
  split; [exact Hpass|]. split; [exact Hne|].
  destruct (award_credits_referrer_only "K7QX2M9B" newUserId
              (Some otherDeviceFingerprint) scenarioStore
              referrerAccount newAccount eq_refl eq_refl Hpass Hne)
    as (res & s' & Hrun & Hra & Hna & _ & Href & _ & _ & Hnew & _).
  exists res, s'. repeat split; assumption.
Defined.

(** C4, as first stated, fails on the score: [maxTouchPoints] is 0 in
    both records and is skipped, so seven fields are compared and two
    match; the score is not 3/8. *)
Lemma scenario_score_is_not_three_eighths :
  countChecks referrerFingerprint otherDeviceFingerprint
    = {| matchCount := 2; totalChecks := 7 |} /\
  ~ (similarityScore referrerFingerprint otherDeviceFingerprint == 3 # 8)%Q.
Proof.
  split; [vm_compute; reflexivity|].
  intros H. vm_compute in H. discriminate.
Qed.

(** C4 (amended): in the end-to-end scenario the similarity score is 2/7
    (the touch-point count 0 is skipped), which is below 0.7, so
    [awardReferralPoints] succeeds and the referrer's points go from 0 to
    100 while the new user's stay 0. *)
Theorem scenario_other_device_awarded :
  (similarityScore referrerFingerprint otherDeviceFingerprint == 2 # 7)%Q /\
  (2 # 7 < 7 # 10)%Q /\
  isSameDevice (Some referrerFingerprint) (Some otherDeviceFingerprint) (7 # 10)
    = false /\
  pointsOf referrerId scenarioStore = Some 0%N /\
  exists res s',
    awardReferralPoints "K7QX2M9B" newUserId (Some otherDeviceFingerprint)
      scenarioStore = (inr res, s') /\
    referrerPointsAwarded res = 100%N /\
    newUserPointsAwarded res = 0%N /\
    fraudCheckPassed res = true /\
    pointsOf referrerId s' = Some 100%N /\
    pointsOf newUserId s' = Some 0%N.
Proof.
  split; [vm_compute; reflexivity|].
  split; [reflexivity|].
  split; [vm_compute; reflexivity|].
  split; [reflexivity|].
  eexists _, _. split; [vm_compute; reflexivity|].
  repeat split; vm_compute; reflexivity.
Qed.

(** *** Instances of the evaluator's theorems *)

(** Case analysis on membership in the fixed field set. *)
Ltac each_fixed_field H :=
  unfold fixedFields, criticalFields in H; simpl in H;
  repeat (destruct H as [<-|H]); [..|contradiction].

Lemma no_comparable_not_same_witness :
  (0 < 7 # 10)%Q /\
  isSameDevice (Some platformOnly) (Some languageOnly) (7 # 10) = false.
Proof.
  split; [reflexivity|].
  apply (no_comparable_not_same platformOnly languageOnly (7 # 10));
    [|reflexivity].
  intros field Hin. each_fixed_field Hin; vm_compute; reflexivity.
Defined.

Lemma agreeOnFixed_laterProbe : agreeOnFixed referrerFingerprint laterProbe.
Proof.
  intros field Hin. each_fixed_field Hin; vm_compute; reflexivity.
Defined.

Lemma identical_same_device_witness :
  agreeOnFixed referrerFingerprint laterProbe /\
  (1 <= 1)%Q /\
  isSameDevice (Some referrerFingerprint) (Some laterProbe) 1 = true.
Proof.
  split; [exact agreeOnFixed_laterProbe|]. split; [discriminate|].
  apply (identical_same_device referrerFingerprint laterProbe 1).
  - exact agreeOnFixed_laterProbe.
  - exists "platform". split; [left; reflexivity|vm_compute; reflexivity].
  - discriminate.
Defined.

Lemma agreeOnFixed_decoratedProbe :
  agreeOnFixed otherDeviceFingerprint decoratedProbe.
Proof.
  intros field Hin. each_fixed_field Hin; vm_compute; reflexivity.
Defined.

Lemma verdict_depends_on_fixed_fields_witness :
  laterProbe <> referrerFingerprint /\
  isSameDevice (Some referrerFingerprint) (Some otherDeviceFingerprint) (7 # 10)
  = isSameDevice (Some laterProbe) (Some decoratedProbe) (7 # 10).
Proof.
  split.
  - intros H. apply (f_equal (fun fp => prop fp "visitorId")) in H.
    vm_compute in H. discriminate.
  - apply (verdict_depends_on_fixed_fields referrerFingerprint laterProbe
             otherDeviceFingerprint decoratedProbe (7 # 10)).
    + exact agreeOnFixed_laterProbe.
    + exact agreeOnFixed_decoratedProbe.
Defined.

(** ** Further properties of the similarity evaluator *)

Lemma strict_eq_sym v w : strict_eq v w = strict_eq w v.
Proof.
  destruct v as [| |x|p|s|m], w as [| |y|q|t|n]; simpl; try reflexivity.
  - destruct x, y; reflexivity.
  - destruct (Qeq_bool p q) eqn:H1, (Qeq_bool q p) eqn:H2; try reflexivity.
    + apply Qeq_bool_iff in H1. symmetry in H1.
      apply Qeq_bool_iff in H1. congruence.
    + apply Qeq_bool_iff in H2. symmetry in H2.
      apply Qeq_bool_iff in H2. congruence.
  - apply String.eqb_sym.
  - apply N.eqb_sym.
Qed.

Lemma countChecks_sym (a b : Fingerprint) : countChecks a b = countChecks b a.
Proof.
  rewrite !countChecks_filter.
  apply counters_eq; f_equal; apply List.filter_ext; intros f;
    unfold matching, comparable.
  - rewrite (andb_comm (truthy (prop a f))), (strict_eq_sym (prop a f)).
    reflexivity.
  - apply andb_comm.
Qed.

(** The score is a fraction of the compared fields. *)
Lemma score_bounds (a b : Fingerprint) :
  (0 <= similarityScore a b)%Q /\ (similarityScore a b <= 1)%Q.
Proof.
  unfold similarityScore.
  pose proof (matchCount_le_totalChecks a b) as Hle.
  destruct (Nat.ltb_spec 0 (totalChecks (countChecks a b))) as [Hpos|_];
    [|split; discriminate].
  assert (Hc : (0 < inject_Z (Z.of_nat (totalChecks (countChecks a b))))%Q).
  { rewrite <- (Zlt_Qlt 0). lia. }
  split.
  - apply Qle_shift_div_l; [exact Hc|].
    rewrite Qmult_0_l. rewrite <- (Zle_Qle 0). lia.
  - apply Qle_shift_div_r; [exact Hc|].
    rewrite Qmult_1_l. rewrite <- Zle_Qle. lia.
Qed.

(** The verdict at 7/10 in whole numbers. *)
Lemma verdict_seven_tenths (m c : nat) :
  (0 < c)%nat ->
  Qle_bool (7 # 10) (inject_Z (Z.of_nat m) / inject_Z (Z.of_nat c))
  = (7 * c <=? 10 * m)%nat.
Proof.
  intros Hc.
  assert (Hq : (0 < inject_Z (Z.of_nat c))%Q) by (rewrite <- (Zlt_Qlt 0); lia).
  destruct (Nat.leb_spec (7 * c) (10 * m)) as [H|H].
  - apply Qle_bool_iff, Qle_shift_div_l; [exact Hq|].
    unfold Qle, Qmult, inject_Z. simpl. lia.
  - apply not_true_iff_false. rewrite Qle_bool_iff. intros Hle.
    apply (Qmult_le_compat_r _ _ (inject_Z (Z.of_nat c))) in Hle;
      [|apply Qlt_le_weak, Hq].
    unfold Qdiv in Hle.
    rewrite <- Qmult_assoc, (Qmult_comm (/ _)), Qmult_inv_r, Qmult_1_r in Hle
      by (intros E; rewrite E in Hq; discriminate).
    unfold Qle, Qmult, inject_Z in Hle. simpl in Hle. lia.
Qed.

(** X1: [isSameDevice] is symmetric in its two fingerprints, absent ones
    included. *)
Theorem isSameDevice_symmetric
    (fingerprint1 fingerprint2 : option Fingerprint) (threshold : Q) :
  isSameDevice fingerprint1 fingerprint2 threshold
  = isSameDevice fingerprint2 fingerprint1 threshold.
Proof.
  destruct fingerprint1 as [a|], fingerprint2 as [b|]; try reflexivity.
  simpl. unfold similarityScore. rewrite (countChecks_sym a b). reflexivity.
Qed.

(** X2: with a threshold above 1 no pair of fingerprints is ever the
    same device, two identical complete fingerprints included. *)
Theorem threshold_above_one_never_matches
    (fingerprint1 fingerprint2 : option Fingerprint) (threshold : Q) :
  (1 < threshold)%Q ->
  isSameDevice fingerprint1 fingerprint2 threshold = false.
Proof.
  intros Ht.
  destruct fingerprint1 as [a|], fingerprint2 as [b|]; try reflexivity.
  simpl. apply not_true_iff_false. rewrite Qle_bool_iff. intros Hle.
  destruct (score_bounds a b) as [_ Hone].
  apply (Qlt_not_le _ _ Ht). apply (Qle_trans _ _ _ Hle Hone).
Qed.

Lemma threshold_above_one_never_matches_witness :
  (1 < 11 # 10)%Q /\
  isSameDevice (Some referrerFingerprint) (Some referrerFingerprint) (11 # 10)
    = false.
Proof.
  split; [reflexivity|].
  apply (threshold_above_one_never_matches (Some referrerFingerprint)
           (Some referrerFingerprint) (11 # 10)).
  reflexivity.
Defined.

(** X3: with a threshold of 0 or less every pair of fingerprints that are
    both given is the same device, whatever they hold; a pair with an
    absent fingerprint still is not. *)
Theorem threshold_zero_matches_all
    (fingerprint1 fingerprint2 : option Fingerprint) (threshold : Q) :
  (threshold <= 0)%Q ->
  isSameDevice fingerprint1 fingerprint2 threshold
  = present fingerprint1 && present fingerprint2.
Proof.
  intros Ht.
  destruct fingerprint1 as [a|], fingerprint2 as [b|]; try reflexivity.
  simpl. apply Qle_bool_iff.
  destruct (score_bounds a b) as [Hzero _].
  apply (Qle_trans _ _ _ Ht Hzero).
Qed.

Lemma threshold_zero_matches_all_witness :
  (0 <= 0)%Q /\
  isSameDevice (Some referrerFingerprint) (Some otherDeviceFingerprint) 0 = true /\
  isSameDevice None (Some otherDeviceFingerprint) 0 = false.
Proof.
  split; [discriminate|]. split.
  - apply (threshold_zero_matches_all (Some referrerFingerprint)
             (Some otherDeviceFingerprint) 0). discriminate.
  - apply (threshold_zero_matches_all None (Some otherDeviceFingerprint) 0).
    discriminate.
Defined.

(** X4: the verdict is monotone in the threshold: a pair that is the same
    device at a threshold is the same device at every lower one. *)
Theorem verdict_monotone_in_threshold
    (fingerprint1 fingerprint2 : option Fingerprint) (low high : Q) :
  (low <= high)%Q ->
  isSameDevice fingerprint1 fingerprint2 high = true ->
  isSameDevice fingerprint1 fingerprint2 low = true.
Proof.
  intros Hle.
  destruct fingerprint1 as [a|], fingerprint2 as [b|]; try discriminate.
  simpl. rewrite !Qle_bool_iff. intros H.
  apply (Qle_trans _ _ _ Hle H).
Qed.

Lemma verdict_monotone_in_threshold_witness :
  (1 # 2 <= 7 # 10)%Q /\
  isSameDevice (Some referrerFingerprint) (Some laterProbe) (7 # 10) = true /\
  isSameDevice (Some referrerFingerprint) (Some laterProbe) (1 # 2) = true.
Proof.
  assert (H : isSameDevice (Some referrerFingerprint) (Some laterProbe) (7 # 10)
              = true) by (vm_compute; reflexivity).
  split; [discriminate|]. split; [exact H|].
  apply (verdict_monotone_in_threshold (Some referrerFingerprint)
           (Some laterProbe) (1 # 2) (7 # 10)); [discriminate|exact H].
Defined.

(** X5: at the threshold 0.7 of the call sites, read as 7/10 or as the
    double nearest to it, two given fingerprints are the same device
    exactly when at least one field is compared and ten times the matches
    reach seven times the comparisons. *)
Theorem verdict_at_call_site_threshold (a b : Fingerprint) :
  isSameDevice (Some a) (Some b) (7 # 10)
    = ((0 <? totalChecks (countChecks a b))%nat
       && (7 * totalChecks (countChecks a b)
           <=? 10 * matchCount (countChecks a b))%nat) /\
  isSameDevice (Some a) (Some b) double_0_7
    = isSameDevice (Some a) (Some b) (7 # 10).
Proof.
  split; [|apply isSameDevice_literal_threshold].
  simpl. unfold similarityScore.
  destruct (Nat.ltb_spec 0 (totalChecks (countChecks a b))) as [Hpos|_];
    [|reflexivity].
  simpl. apply verdict_seven_tenths, Hpos.
Qed.

(** ** Further properties of the points transaction *)

(** The outcome of [awardReferralPoints], step by step. *)
Lemma awardReferralPoints_run referralCode newUserId newUserFingerprint (s : Store) :
  awardReferralPoints referralCode newUserId newUserFingerprint s =
  match List.find (fun u => String.eqb (myReferralCode u) referralCode) s with
  | None => (inl InvalidReferralCode, s)
  | Some r =>
      match List.find (fun u => String.eqb (_id u) newUserId) s with
      | None => (inl NewUserNotFound, s)
      | Some n =>
          match fst (fraudCheck r newUserId newUserFingerprint s) with
          | inl e => (inl e, s)
          | inr _ =>
              (inr (awarded r n),
               updateOne (_id r) (setPoints (points r + 100)) s)
          end
      end
  end.
Proof.
  destruct (List.find (fun u => String.eqb (myReferralCode u) referralCode) s)
    as [r|] eqn:Hr.
  - destruct (List.find (fun u => String.eqb (_id u) newUserId) s)
      as [n|] eqn:Hn.
    + apply awardReferralPoints_resolved.
      * unfold findByReferralCode, findOne. rewrite Hr. reflexivity.
      * unfold findById, findOne. rewrite Hn. reflexivity.
    + unfold awardReferralPoints, bind, findByReferralCode, findById, findOne.
      rewrite Hr, Hn. reflexivity.
  - unfold awardReferralPoints, bind, findByReferralCode, findOne.
    rewrite Hr. reflexivity.
Qed.

(** The call either fails and leaves the store, or credits the resolved
    referrer. *)
Lemma awardReferralPoints_outcome referralCode newUserId newUserFingerprint (s : Store) :
  (exists e,
     awardReferralPoints referralCode newUserId newUserFingerprint s = (inl e, s))
  \/
  (exists r n,
     In r s /\ myReferralCode r = referralCode /\
     List.find (fun u => String.eqb (_id u) newUserId) s = Some n /\
     fst (fraudCheck r newUserId newUserFingerprint s) = inr tt /\
     awardReferralPoints referralCode newUserId newUserFingerprint s
     = (inr (awarded r n), updateOne (_id r) (setPoints (points r + 100)) s)).
Proof.
  rewrite awardReferralPoints_run.
  destruct (List.find (fun u => String.eqb (myReferralCode u) referralCode) s)
    as [r|] eqn:Hr; [|left; eauto].
  destruct (List.find (fun u => String.eqb (_id u) newUserId) s)
    as [n|] eqn:Hn; [|left; eauto].
  destruct (fst (fraudCheck r newUserId newUserFingerprint s)) as [e|[]] eqn:Hf;
    [left; eauto|].
  right. exists r, n. apply find_In in Hr as [Hin Hcode].
  apply String.eqb_eq in Hcode. auto.
Qed.

Lemma updateOne_setPoints_ids id p (s : Store) :
  List.map _id (updateOne id (setPoints p) s) = List.map _id s.
Proof.
  induction s as [|u s IH]; simpl; [reflexivity|].
  destruct (String.eqb (_id u) id); simpl; [reflexivity|]. rewrite IH. reflexivity.
Qed.

Lemma updateOne_setPoints_codes id p (s : Store) :
  List.map myReferralCode (updateOne id (setPoints p) s)
  = List.map myReferralCode s.
Proof.
  induction s as [|u s IH]; simpl; [reflexivity|].
  destruct (String.eqb (_id u) id); simpl; [reflexivity|]. rewrite IH. reflexivity.
Qed.

Lemma updateOne_setPoints_fingerprints id p (s : Store) :
  List.map fingerprint (updateOne id (setPoints p) s) = List.map fingerprint s.
Proof.
  induction s as [|u s IH]; simpl; [reflexivity|].
  destruct (String.eqb (_id u) id); simpl; [reflexivity|]. rewrite IH. reflexivity.
Qed.

(** With unique identities, two documents of the store with one identity
    are one document. *)
Lemma uniqueIds_inj (s : Store) (u v : User) :
  uniqueIds s -> In u s -> In v s -> _id u = _id v -> u = v.
Proof.
  intros Hu Hinu Hinv Hid.
  pose proof (find_by_id_unique s u Hu Hinu) as H1.
  pose proof (find_by_id_unique s v Hu Hinv) as H2.
  rewrite Hid in H1. congruence.
Qed.

Lemma totalPoints_updateOne (s : Store) (r : User) (p : N) :
  uniqueIds s -> In r s ->
  (totalPoints (updateOne (_id r) (setPoints p) s) + points r
   = totalPoints s + p)%N.
Proof.
  unfold totalPoints.
  induction s as [|v s IH]; simpl; [tauto|].
  intros Hu Hin.
  destruct (String.eqb_spec (_id v) (_id r)) as [Heq|Hne]; simpl.
  - assert (v = r) as ->
      by (apply (uniqueIds_inj (v :: s)); simpl; auto).
    lia.
  - destruct Hin as [->|Hin]; [contradiction|].
    unfold uniqueIds in Hu. simpl in Hu.
    apply List.NoDup_cons_iff in Hu as [_ Hu].
    specialize (IH Hu Hin). lia.
Qed.

(** X6: whatever its outcome, [awardReferralPoints] leaves the accounts
    of the store in place with their identities, referral codes and
    fingerprints: points are all it can change. *)
Theorem award_changes_points_only
    (referralCode newUserId : string) (newUserFingerprint : option Fingerprint)
    (s : Store) :
  let s' := snd (awardReferralPoints referralCode newUserId newUserFingerprint s) in
  List.map _id s' = List.map _id s /\
  List.map myReferralCode s' = List.map myReferralCode s /\
  List.map fingerprint s' = List.map fingerprint s /\
  length s' = length s.
Proof.
  intros s'. subst s'.
  destruct (awardReferralPoints_outcome referralCode newUserId
              newUserFingerprint s) as [[e ->]|(r & n & _ & _ & _ & _ & ->)];
    simpl; [auto|].
  repeat split.
  - apply updateOne_setPoints_ids.
  - apply updateOne_setPoints_codes.
  - apply updateOne_setPoints_fingerprints.
  - rewrite <- (length_map _id), updateOne_setPoints_ids, length_map.
    reflexivity.
Qed.

(** X7: in a collection with unique identities, [awardReferralPoints]
    never lowers the points of any account. *)
Theorem award_never_lowers_points
    (referralCode newUserId : string) (newUserFingerprint : option Fingerprint)
    (s : Store) (id : string) (p : N) :
  uniqueIds s ->
  pointsOf id s = Some p ->
  exists p',
    pointsOf id
      (snd (awardReferralPoints referralCode newUserId newUserFingerprint s))
    = Some p' /\ (p <= p')%N.
Proof.
  intros Hu Hp.
  destruct (awardReferralPoints_outcome referralCode newUserId
              newUserFingerprint s) as [[e ->]|(r & n & Hin & _ & _ & _ & ->)];
    simpl.
  - exists p. split; [exact Hp|lia].
  - destruct (String.eqb_spec id (_id r)) as [->|Hne].
    + rewrite pointsOf_updateOne_same by eauto.
      rewrite (pointsOf_unique s r Hu Hin) in Hp. injection Hp as <-.
      eexists. split; [reflexivity|lia].
    + rewrite pointsOf_updateOne_other by exact Hne.
      exists p. split; [exact Hp|lia].
Qed.

Lemma uniqueIds_scenarioStore : uniqueIds scenarioStore.
Proof.
  unfold uniqueIds. simpl.
  repeat constructor; simpl; intros H; repeat destruct H as [H|H];
    try discriminate; assumption.
Defined.

Lemma award_never_lowers_points_witness :
  uniqueIds scenarioStore /\
  pointsOf referrerId scenarioStore = Some 0%N /\
  exists p',
    pointsOf referrerId
      (snd (awardReferralPoints "K7QX2M9B" newUserId
              (Some otherDeviceFingerprint) scenarioStore))
    = Some p' /\ (0 <= p')%N.
Proof.
  split; [exact uniqueIds_scenarioStore|]. split; [reflexivity|].
  apply (award_never_lowers_points "K7QX2M9B" newUserId
           (Some otherDeviceFingerprint) scenarioStore referrerId 0%N);
    [exact uniqueIds_scenarioStore|reflexivity].
Defined.

(** X8: in a collection with unique identities, a successful
    [awardReferralPoints] raises the points held by all accounts together
    by exactly 100, and a failed one leaves them as they were. *)
Theorem award_creates_100_points
    (referralCode newUserId : string) (newUserFingerprint : option Fingerprint)
    (s : Store) :
  uniqueIds s ->
  match awardReferralPoints referralCode newUserId newUserFingerprint s with
  | (inr _, s') => totalPoints s' = (totalPoints s + 100)%N
  | (inl _, s') => totalPoints s' = totalPoints s
  end.
Proof.
  intros Hu.
  destruct (awardReferralPoints_outcome referralCode newUserId
              newUserFingerprint s) as [[e ->]|(r & n & Hin & _ & _ & _ & ->)];
    [reflexivity|].
  pose proof (totalPoints_updateOne s r (points r + 100) Hu Hin). lia.
Qed.

Lemma award_creates_100_points_witness :
  uniqueIds scenarioStore /\
  totalPoints scenarioStore = 0%N /\
  totalPoints
    (snd (awardReferralPoints "K7QX2M9B" newUserId
            (Some otherDeviceFingerprint) scenarioStore)) = 100%N.
Proof.
  split; [exact uniqueIds_scenarioStore|]. split; [reflexivity|].
  pose proof (award_creates_100_points "K7QX2M9B" newUserId
                (Some otherDeviceFingerprint) scenarioStore
                uniqueIds_scenarioStore) as H.
  destruct (awardReferralPoints "K7QX2M9B" newUserId
              (Some otherDeviceFingerprint) scenarioStore) as [[e|res] s'] eqn:E.
  - vm_compute in E. discriminate.
  - simpl. exact H.
Defined.

(** *** Points do not enter any check *)

Lemma find_related (R : User -> User -> Prop) (q : User -> bool) (s1 s2 : Store) :
  Forall2 R s1 s2 -> (forall u v, R u v -> q u = q v) ->
  match List.find q s1, List.find q s2 with
  | Some u, Some v => R u v
  | None, None => True
  | _, _ => False
  end.
Proof.
  intros H Hq. induction H as [|u v s1 s2 Huv _ IH]; simpl; [exact I|].
  rewrite <- (Hq u v Huv). destruct (q u); [exact Huv|exact IH].
Qed.

Lemma filter_related (R : User -> User -> Prop) (q : User -> bool) (s1 s2 : Store) :
  Forall2 R s1 s2 -> (forall u v, R u v -> q u = q v) ->
  Forall2 R (List.filter q s1) (List.filter q s2).
Proof.
  intros H Hq. induction H as [|u v s1 s2 Huv _ IH]; simpl; [constructor|].
  rewrite <- (Hq u v Huv). destruct (q u); [constructor; assumption|exact IH].
Qed.

Lemma updateOne_related id p1 p2 (s1 s2 : Store) :
  Forall2 sameButPoints s1 s2 ->
  Forall2 sameButPoints (updateOne id (setPoints p1) s1)
                        (updateOne id (setPoints p2) s2).
Proof.
  intros H. induction H as [|u v s1 s2 Huv Hrest IH]; simpl; [constructor|].
  destruct Huv as (Hid & Hcode & Hfp). rewrite <- Hid.
  destruct (String.eqb (_id u) id); constructor; auto;
    unfold sameButPoints; simpl; auto.
Qed.

Lemma sameButPoints_refl_list (s : Store) : Forall2 sameButPoints s s.
Proof. induction s; constructor; unfold sameButPoints; auto. Qed.

Lemma fraudCheck_related r1 r2 newUserId newUserFingerprint (s1 s2 : Store) :
  sameButPoints r1 r2 -> Forall2 sameButPoints s1 s2 ->
  fst (fraudCheck r1 newUserId newUserFingerprint s1)
  = fst (fraudCheck r2 newUserId newUserFingerprint s2).
Proof.
  intros (_ & _ & Hfp) Hs.
  destruct newUserFingerprint as [fp|]; [|reflexivity].
  rewrite !fraudCheck_run, Hfp.
  destruct (present (fingerprint r2) && isSameDevice _ _ _); [reflexivity|].
  rewrite !findMatchingFingerprint_run. simpl.
  assert (Hscan : Forall2 sameButPoints (List.filter visitorIdExists s1)
                                        (List.filter visitorIdExists s2)).
  { apply filter_related; [exact Hs|].
    intros u v (_ & _ & E). unfold visitorIdExists. rewrite E. reflexivity. }
  pose proof (find_related sameButPoints
                (matchesFingerprint (Some fp) (7 # 10)) _ _ Hscan) as H.
  destruct (List.find _ (List.filter visitorIdExists s1)) as [e1|],
           (List.find _ (List.filter visitorIdExists s2)) as [e2|];
    try (exfalso; apply H; intros u v (_ & _ & E);
         unfold matchesFingerprint; rewrite E; reflexivity);
    [|reflexivity].
  assert (He : sameButPoints e1 e2).
  { apply H. intros u v (_ & _ & E). unfold matchesFingerprint.
    rewrite E. reflexivity. }
  destruct He as (Hid & _ & _). rewrite Hid. reflexivity.
Qed.

(** X9: no check of [awardReferralPoints] reads any points: on two stores
    whose accounts differ at most in their points the call raises the
    same error, or succeeds on both for the same referrer and new user,
    and the stores it leaves again differ at most in points. *)
Theorem award_ignores_points
    (referralCode newUserId : string) (newUserFingerprint : option Fingerprint)
    (s1 s2 : Store) :
  Forall2 sameButPoints s1 s2 ->
  sameOutcome
    (fst (awardReferralPoints referralCode newUserId newUserFingerprint s1))
    (fst (awardReferralPoints referralCode newUserId newUserFingerprint s2))
  /\ Forall2 sameButPoints
       (snd (awardReferralPoints referralCode newUserId newUserFingerprint s1))
       (snd (awardReferralPoints referralCode newUserId newUserFingerprint s2)).
Proof.
  intros Hs. rewrite !awardReferralPoints_run.
  pose proof (find_related sameButPoints
                (fun u => String.eqb (myReferralCode u) referralCode) _ _ Hs)
    as Hcode.
  destruct (List.find _ s1) as [r1|], (List.find _ s2) as [r2|];
    try (exfalso; apply Hcode; intros u v (_ & E & _); rewrite E; reflexivity);
    [|simpl; auto].
  assert (Hr : sameButPoints r1 r2)
    by (apply Hcode; intros u v (_ & E & _); rewrite E; reflexivity).
  clear Hcode.
  pose proof (find_related sameButPoints
                (fun u => String.eqb (_id u) newUserId) _ _ Hs) as Hid.
  destruct (List.find _ s1) as [n1|], (List.find _ s2) as [n2|];
    try (exfalso; apply Hid; intros u v (E & _ & _); rewrite E; reflexivity);
    [|simpl; auto].
  assert (Hn : sameButPoints n1 n2)
    by (apply Hid; intros u v (E & _ & _); rewrite E; reflexivity).
  clear Hid.
  rewrite (fraudCheck_related r1 r2 newUserId newUserFingerprint s1 s2 Hr Hs).
  destruct (fst (fraudCheck r2 newUserId newUserFingerprint s2)) as [e|[]];
    simpl; [auto|].
  split.
  - split; [|exact Hn]. destruct Hr as (E1 & E2 & E3).
    unfold sameButPoints. simpl. auto.
  - destruct Hr as (E1 & _ & _). rewrite E1. apply updateOne_related, Hs.
Qed.

Lemma sameButPoints_seasonedStore : Forall2 sameButPoints scenarioStore seasonedStore.
Proof. repeat constructor. Defined.

Lemma award_ignores_points_witness :
  Forall2 sameButPoints scenarioStore seasonedStore /\
  sameOutcome
    (fst (awardReferralPoints "K7QX2M9B" newUserId
            (Some otherDeviceFingerprint) scenarioStore))
    (fst (awardReferralPoints "K7QX2M9B" newUserId
            (Some otherDeviceFingerprint) seasonedStore)).
Proof.
  split; [exact sameButPoints_seasonedStore|].
  apply (award_ignores_points "K7QX2M9B" newUserId
           (Some otherDeviceFingerprint) scenarioStore seasonedStore
           sameButPoints_seasonedStore).
Defined.

Lemma updateOne_sameButPoints id p (s : Store) :
  Forall2 sameButPoints (updateOne id (setPoints p) s) s.
Proof.
  induction s as [|v s IH]; simpl; [constructor|].
  destruct (String.eqb (_id v) id); constructor;
    solve [ unfold sameButPoints; simpl; auto
          | apply sameButPoints_refl_list
          | exact IH ].
Qed.

(** A query that does not read what an update writes finds the same
    document, updated if it is the one the update reached. *)
Lemma find_updateOne (q : User -> bool) id p (s : Store) :
  uniqueIds s ->
  (forall u, q (setPoints p u) = q u) ->
  List.find q (updateOne id (setPoints p) s)
  = (fun u => if String.eqb (_id u) id then setPoints p u else u)
      <$> List.find q s.
Proof.
  intros Hu Hq. induction s as [|v s IH]; simpl; [reflexivity|].
  unfold uniqueIds in Hu. simpl in Hu.
  apply List.NoDup_cons_iff in Hu as [Hnotin Hu].
  destruct (String.eqb_spec (_id v) id) as [Heq|Hne]; simpl.
  - rewrite Hq. destruct (q v) eqn:Hqv; simpl.
    + rewrite Heq, String.eqb_refl. reflexivity.
    + destruct (List.find q s) as [u|] eqn:Hf; simpl; [|reflexivity].
      apply find_In in Hf as [Hin _].
      destruct (String.eqb_spec (_id u) id) as [E|_]; [|reflexivity].
      exfalso. apply Hnotin. rewrite Heq, <- E. apply List.in_map, Hin.
  - destruct (q v) eqn:Hqv; simpl.
    + destruct (String.eqb_spec (_id v) id); [contradiction|reflexivity].
    + apply IH, Hu.
Qed.

(** X10: nothing records that a referral was rewarded: in a collection
    with unique identities, a call of [awardReferralPoints] that
    succeeded succeeds again when repeated on the store it left, and the
    referrer is credited another 100 points. *)
Theorem award_can_be_repeated
    (referralCode newUserId : string) (newUserFingerprint : option Fingerprint)
    (s s' : Store) (res : AwardResult) :
  uniqueIds s ->
  awardReferralPoints referralCode newUserId newUserFingerprint s
    = (inr res, s') ->
  exists res' s'',
    awardReferralPoints referralCode newUserId newUserFingerprint s'
      = (inr res', s'') /\
    _id (referrer res') = _id (referrer res) /\
    pointsOf (_id (referrer res)) s' = Some (points (referrer res)) /\
    pointsOf (_id (referrer res)) s''
      = Some (points (referrer res) + 100)%N.
Proof.
  intros Hu Hrun. rewrite awardReferralPoints_run in Hrun.
  destruct (List.find (fun u => String.eqb (myReferralCode u) referralCode) s)
    as [r|] eqn:Hr; [|discriminate].
  destruct (List.find (fun u => String.eqb (_id u) newUserId) s)
    as [n|] eqn:Hn; [|discriminate].
  destruct (fst (fraudCheck r newUserId newUserFingerprint s)) as [e|[]] eqn:Hf;
    [discriminate|].
  injection Hrun as <- <-.
  destruct (find_In _ _ _ Hr) as [Hin _].
  rewrite awardReferralPoints_run.
  rewrite !find_updateOne by (auto || reflexivity).
  rewrite Hr, Hn. simpl. rewrite String.eqb_refl.
  set (n' := if String.eqb (_id n) (_id r)
             then setPoints (points r + 100) n else n).
  rewrite (fraudCheck_related (setPoints (points r + 100) r) r newUserId
             newUserFingerprint
             (updateOne (_id r) (setPoints (points r + 100)) s) s).
  - rewrite Hf. eexists _, _. split; [reflexivity|]. simpl.
    split; [reflexivity|]. split.
    + apply pointsOf_updateOne_same. eauto.
    + apply pointsOf_updateOne_same.
      exists (setPoints (points r + 100) r). split; [|reflexivity].
      assert (Hfind : List.find (fun u => String.eqb (_id u) (_id r))
                        (updateOne (_id r) (setPoints (points r + 100)) s)
                      = Some (setPoints (points r + 100) r)).
      { rewrite find_updateOne by (auto || reflexivity).
        rewrite (find_by_id_unique s r Hu Hin). simpl.
        rewrite String.eqb_refl. reflexivity. }
      apply find_In in Hfind as [H _]. exact H.
  - unfold sameButPoints. simpl. auto.
  - apply updateOne_sameButPoints.
Qed.

Lemma award_can_be_repeated_witness :
  uniqueIds scenarioStore /\
  exists res s' res' s'',
    awardReferralPoints "K7QX2M9B" newUserId (Some otherDeviceFingerprint)
      scenarioStore = (inr res, s') /\
    awardReferralPoints "K7QX2M9B" newUserId (Some otherDeviceFingerprint) s'
      = (inr res', s'') /\
    pointsOf referrerId s' = Some 100%N /\
    pointsOf referrerId s'' = Some 200%N.
Proof.
  split; [exact uniqueIds_scenarioStore|].
  assert (Hrun : awardReferralPoints "K7QX2M9B" newUserId
                   (Some otherDeviceFingerprint) scenarioStore
                 = (inr (awarded referrerAccount newAccount),
                    updateOne referrerId (setPoints 100) scenarioStore))
    by (vm_compute; reflexivity).
  destruct (award_can_be_repeated "K7QX2M9B" newUserId
              (Some otherDeviceFingerprint) scenarioStore _ _
              uniqueIds_scenarioStore Hrun)
    as (res' & s'' & Hrun' & _ & Hp1 & Hp2).
  eexists _, _, res', s''. split; [exact Hrun|].
  split; [exact Hrun'|]. split; [exact Hp1|exact Hp2].
Defined.

(** *** Which error is raised, and when *)


(** X12: the multiple-accounts error is raised only when the store holds
    an account, other than the new user's, with a [visitorId] field and a
    stored fingerprint that is the same device as the new user's at 0.7. *)
Theorem multiple_accounts_error_has_a_culprit
    (referralCode newUserId : string) (newUserFingerprint : option Fingerprint)
    (s : Store) :
  fst (awardReferralPoints referralCode newUserId newUserFingerprint s)
    = inl FraudMultipleAccounts ->
  exists existing,
    In existing s /\ _id existing <> newUserId /\
    visitorIdExists existing = true /\
    isSameDevice (fingerprint existing) newUserFingerprint (7 # 10) = true.
Proof.
  rewrite awardReferralPoints_run.
  destruct (List.find (fun u => String.eqb (myReferralCode u) referralCode) s)
    as [r|]; [|discriminate].
  destruct (List.find (fun u => String.eqb (_id u) newUserId) s)
    as [n|]; [|discriminate].
  destruct newUserFingerprint as [fp|]; [|discriminate].
  rewrite fraudCheck_run.
  destruct (present (fingerprint r) && isSameDevice _ _ _); [discriminate|].
  rewrite findMatchingFingerprint_run. simpl.
  destruct (List.find _ _) as [existing|] eqn:Hfind; [|discriminate].
  destruct (String.eqb_spec (_id existing) newUserId) as [|Hne]; simpl;
    [discriminate|].
  intros _. apply find_In in Hfind as [Hin Hmatch].
  apply List.filter_In in Hin as [Hin Hscan].
  rewrite matchesFingerprint_isSameDevice in Hmatch.
  exists existing. auto.
Qed.

Lemma multiple_accounts_error_has_a_culprit_witness :
  fst (awardReferralPoints "K7QX2M9B" newUserId (Some otherDeviceFingerprint)
         crowdedStore) = inl FraudMultipleAccounts /\
  exists existing,
    In existing crowdedStore /\ _id existing <> newUserId /\
    visitorIdExists existing = true /\
    isSameDevice (fingerprint existing) (Some otherDeviceFingerprint) (7 # 10)
      = true.
Proof.
  assert (H : fst (awardReferralPoints "K7QX2M9B" newUserId
                     (Some otherDeviceFingerprint) crowdedStore)
              = inl FraudMultipleAccounts) by (vm_compute; reflexivity).
  split; [exact H|].
  exact (multiple_accounts_error_has_a_culprit "K7QX2M9B" newUserId
           (Some otherDeviceFingerprint) crowdedStore H).
Defined.

(** The first scanned match of a store split at it. *)
Lemma find_filter_at {A} (p q : A -> bool) (before after : list A) (x : A) :
  p x = true -> q x = true ->
  (forall y, In y before -> p y = true -> q y = false) ->
  List.find q (List.filter p (before ++ x :: after)%list) = Some x.
Proof.
  intros Hp Hq. induction before as [|y before IH]; simpl; intros Hfirst.
  - rewrite Hp. simpl. rewrite Hq. reflexivity.
  - destruct (p y) eqn:Hpy; simpl.
    + rewrite (Hfirst y) by auto. apply IH. intros z Hz. apply Hfirst. auto.
    + apply IH. intros z Hz. apply Hfirst. auto.
Qed.

(** X13: the lookup stops at its first match, and a match that is the
    new user's own account raises no error: when that account precedes
    every other scanned match in store order and the referrer is another
    device, [awardReferralPoints] succeeds whatever accounts follow it,
    accounts on the new user's device included. *)
Theorem own_account_masks_later_matches
    (referralCode newUserId : string) (fp : Fingerprint)
    (before after : Store) (r n : User) :
  let s := (before ++ n :: after)%list in
  findByReferralCode referralCode s = (inr (Some r), s) ->
  present (fingerprint r) && isSameDevice (fingerprint r) (Some fp) (7 # 10)
    = false ->
  _id n = newUserId ->
  visitorIdExists n = true ->
  isSameDevice (fingerprint n) (Some fp) (7 # 10) = true ->
  (forall v, In v before -> visitorIdExists v = true ->
     isSameDevice (fingerprint v) (Some fp) (7 # 10) = false) ->
  exists res s',
    awardReferralPoints referralCode newUserId (Some fp) s = (inr res, s') /\
    referrerPointsAwarded res = 100%N.
Proof.
  intros s Hr Hother Hid Hscan Hmatch Hfirst.
  rewrite awardReferralPoints_run.
  unfold findByReferralCode, findOne in Hr. injection Hr as Hr. rewrite Hr.
  destruct (List.find (fun u => String.eqb (_id u) newUserId) s)
    as [n'|] eqn:Hn.
  - rewrite fraudCheck_run, Hother, findMatchingFingerprint_run. simpl.
    unfold s. rewrite (find_filter_at _ _ before after n Hscan).
    + rewrite Hid, String.eqb_refl. simpl. eexists _, _. split; reflexivity.
    + rewrite matchesFingerprint_isSameDevice. exact Hmatch.
    + intros v Hv Hsv. rewrite matchesFingerprint_isSameDevice. auto.
  - exfalso. pose proof (List.find_none _ _ Hn n) as H. simpl in H.
    rewrite Hid, String.eqb_refl in H.
    assert (In n s) by (unfold s; apply List.in_or_app; right; left; reflexivity).
    specialize (H H0). discriminate.
Qed.

Lemma own_account_masks_later_matches_witness :
  maskedStore
    = ([referrerAccount] ++ newAccountWithVisitorId :: [olderAccount])%list /\
  isSameDevice (fingerprint olderAccount) (Some otherDeviceFingerprint) (7 # 10)
    = true /\
  _id olderAccount <> newUserId /\
  exists res s',
    awardReferralPoints "K7QX2M9B" newUserId (Some otherDeviceFingerprint)
      ([referrerAccount] ++ newAccountWithVisitorId :: [olderAccount])%list
      = (inr res, s') /\
    referrerPointsAwarded res = 100%N.
Proof.
  split; [reflexivity|].
  split; [vm_compute; reflexivity|]. split; [discriminate|].
  refine (own_account_masks_later_matches "K7QX2M9B" newUserId
            otherDeviceFingerprint [referrerAccount] [olderAccount]
            referrerAccount newAccountWithVisitorId _ _ _ _ _ _).
  - reflexivity.
  - vm_compute. reflexivity.
  - reflexivity.
  - vm_compute. reflexivity.
  - vm_compute. reflexivity.
  - intros v [<-|[]] _. vm_compute. reflexivity.
Defined.

(** A fingerprint without a truthy fixed field is no device's match at a
    threshold above 0. *)
Lemma isSameDevice_blank (stored : option Fingerprint) (fp : Fingerprint)
    (threshold : Q) :
  blankOnFixed fp -> (0 < threshold)%Q ->
  isSameDevice stored (Some fp) threshold = false.
Proof.
  intros Hblank Hpos. destruct stored as [a|]; [|reflexivity]. simpl.
  rewrite score_no_checks.
  - apply not_true_iff_false. rewrite Qle_bool_iff. apply Qlt_not_le, Hpos.
  - rewrite countChecks_filter. cbn [totalChecks].
    rewrite filter_none; [reflexivity|].
    intros f Hf. unfold comparable. rewrite (Hblank f Hf).
    apply andb_false_r.
Qed.

(** X14: a new-user fingerprint none of whose eight fixed fields holds a
    truthy value (an empty object, for one) passes both fraud checks on
    every store: with a referral code that resolves and a new user that
    exists, [awardReferralPoints] succeeds, even when the referrer's
    stored fingerprint is that same object. *)
Theorem blank_fingerprint_passes_checks
    (referralCode newUserId : string) (fp : Fingerprint) (s : Store)
    (r n : User) :
  blankOnFixed fp ->
  findByReferralCode referralCode s = (inr (Some r), s) ->
  findById newUserId s = (inr (Some n), s) ->
  fst (fraudCheck r newUserId (Some fp) s) = inr tt /\
  exists res s',
    awardReferralPoints referralCode newUserId (Some fp) s = (inr res, s') /\
    referrerPointsAwarded res = 100%N.
Proof.
  intros Hblank Hr Hn.
  assert (Hpass : fst (fraudCheck r newUserId (Some fp) s) = inr tt).
  { rewrite fraudCheck_run.
    rewrite (isSameDevice_blank (fingerprint r) fp (7 # 10) Hblank eq_refl).
    rewrite andb_false_r, findMatchingFingerprint_run. simpl.
    destruct (List.find _ _) as [existing|] eqn:Hfind; [|reflexivity].
    apply find_In in Hfind as [_ Hmatch].
    rewrite matchesFingerprint_isSameDevice in Hmatch.
    rewrite (isSameDevice_blank _ fp (7 # 10) Hblank eq_refl) in Hmatch.
    discriminate. }
  split; [exact Hpass|].
  rewrite (awardReferralPoints_resolved _ _ _ s r n Hr Hn), Hpass.
  eexists _, _. split; reflexivity.
Qed.

Lemma blank_fingerprint_passes_checks_witness :
  blankOnFixed emptyFingerprint /\
  fingerprint blankReferrerAccount = Some emptyFingerprint /\
  exists res s',
    awardReferralPoints "K7QX2M9B" newUserId (Some emptyFingerprint) blankStore
      = (inr res, s') /\
    referrerPointsAwarded res = 100%N.
Proof.
  assert (Hblank : blankOnFixed emptyFingerprint)
    by (intros field _; reflexivity).
  split; [exact Hblank|]. split; [reflexivity|].
  apply (blank_fingerprint_passes_checks "K7QX2M9B" newUserId emptyFingerprint
           blankStore blankReferrerAccount bareAccount Hblank);
    reflexivity.
Defined.

(** X15: called without a fingerprint, [awardReferralPoints] behaves as
    its earlier revision without fraud checks: the same error or the same
    referrer, new user and awards, and the same store. *)
Theorem revision_agrees_without_fingerprint
    (referralCode newUserId : string) (s : Store) :
  match Revision1.awardReferralPoints referralCode newUserId s,
        awardReferralPoints referralCode newUserId None s with
  | (inl e1, s1), (inl e2, s2) => e1 = e2 /\ s1 = s2
  | (inr a, s1), (inr b, s2) =>
      Revision1.referrer a = referrer b /\
      Revision1.newUser a = newUser b /\
      Revision1.referrerPointsAwarded a = referrerPointsAwarded b /\
      Revision1.newUserPointsAwarded a = newUserPointsAwarded b /\
      s1 = s2
  | _, _ => False
  end.
Proof.
  rewrite awardReferralPoints_run.
  unfold Revision1.awardReferralPoints, bind, findByReferralCode, findById,
    findOne.
  destruct (List.find (fun u => String.eqb (myReferralCode u) referralCode) s)
    as [r|]; [|split; reflexivity].
  destruct (List.find (fun u => String.eqb (_id u) newUserId) s)
    as [n|]; [|split; reflexivity].
  simpl. repeat split; reflexivity.
Qed.

(** ** Properties of the routes *)

Lemma checkFingerprintFraud_run (fp : Fingerprint) (referralCode : option string)
    (s : Store) :
  checkFingerprintFraud (Some fp) referralCode s =
  let existing := List.find (matchesFingerprint (Some fp) (7 # 10))
                            (List.filter visitorIdExists s) in
  let found :=
    match referralCode with
    | Some code =>
        if truthyString referralCode
        then List.find (fun u => String.eqb (myReferralCode u) code) s
        else None
    | None => None
    end in
  let sameDevice :=
    match found with
    | Some referrer =>
        present (fingerprint referrer)
        && isSameDevice (fingerprint referrer) (Some fp) (7 # 10)
    | None => false
    end in
  let hasFraud := sameDevice || present existing in
  (inr (FraudReport hasFraud
          {| sameDeviceReferral := sameDevice;
             multipleAccounts := present existing;
             details_existingUser := existing;
             details_referrer := if sameDevice then found else None |}
          (if hasFraud then "Fraud detected in fingerprint data"
           else "Fingerprint check passed")), s).
Proof.
  unfold checkFingerprintFraud, bind. rewrite findMatchingFingerprint_run.
  destruct referralCode as [code|]; [|reflexivity].
  destruct (truthyString (Some code)); reflexivity.
Qed.

(** X16: a pre-check with a fingerprint and a referral code that reports
    no fraud leaves the store as it was and is binding for
    [awardReferralPoints] on the same store: with that code and that
    fingerprint it raises no fraud error, whoever the new user is. *)
Theorem precheck_without_fraud_is_binding
    (fp : Fingerprint) (referralCode : string) (s s' : Store)
    (fraudChecks : FraudChecks) (note : string) :
  truthyString (Some referralCode) = true ->
  checkFingerprintFraud (Some fp) (Some referralCode) s
    = (inr (FraudReport false fraudChecks note), s') ->
  s' = s /\
  forall newUserId e,
    fst (awardReferralPoints referralCode newUserId (Some fp) s) = inl e ->
    e = InvalidReferralCode \/ e = NewUserNotFound.
Proof.
  intros Hcode. rewrite checkFingerprintFraud_run, Hcode. cbv zeta.
  intros H. injection H as Hfraud _ _ Hs. split; [auto|].
  apply orb_false_iff in Hfraud as [Hsame Hnone].
  intros newUserId e. rewrite awardReferralPoints_run.
  destruct (List.find (fun u => String.eqb (myReferralCode u) referralCode) s)
    as [r|]; [|intros [= <-]; auto].
  destruct (List.find (fun u => String.eqb (_id u) newUserId) s)
    as [n|]; [|intros [= <-]; auto].
  rewrite fraudCheck_run, Hsame, findMatchingFingerprint_run. simpl.
  destruct (List.find _ (List.filter visitorIdExists s)); discriminate.
Qed.

Lemma precheck_without_fraud_is_binding_witness :
  truthyString (Some "K7QX2M9B") = true /\
  (exists fraudChecks note,
     checkFingerprintFraud (Some otherDeviceFingerprint) (Some "K7QX2M9B")
       scenarioStore = (inr (FraudReport false fraudChecks note), scenarioStore)) /\
  forall newUserId e,
    fst (awardReferralPoints "K7QX2M9B" newUserId (Some otherDeviceFingerprint)
           scenarioStore) = inl e ->
    e = InvalidReferralCode \/ e = NewUserNotFound.
Proof.
  assert (Hrun : checkFingerprintFraud (Some otherDeviceFingerprint)
                   (Some "K7QX2M9B") scenarioStore
                 = (inr (FraudReport false
                           {| sameDeviceReferral := false;
                              multipleAccounts := false;
                              details_existingUser := None;
                              details_referrer := None |}
                           "Fingerprint check passed"), scenarioStore))
    by (vm_compute; reflexivity).
  split; [reflexivity|]. split; [eauto|].
  apply (precheck_without_fraud_is_binding otherDeviceFingerprint "K7QX2M9B"
           scenarioStore scenarioStore _ _ eq_refl Hrun).
Defined.

(** A fingerprint with a truthy fixed field is the same device as itself
    at every threshold up to 1. *)
Lemma isSameDevice_self (a : Fingerprint) (threshold : Q) :
  (exists field, In field fixedFields /\ truthy (prop a field) = true) ->
  (threshold <= 1)%Q ->
  isSameDevice (Some a) (Some a) threshold = true.
Proof.
  intros [field [Hin Htruthy]] Hle. simpl. apply Qle_bool_iff.
  rewrite score_all_match; [exact Hle| |].
  - rewrite countChecks_filter. cbn [totalChecks].
    apply (filter_some_length _ _ field Hin).
    unfold comparable. rewrite Htruthy. reflexivity.
  - rewrite countChecks_filter. cbn [totalChecks matchCount]. f_equal.
    apply List.filter_ext. intros f.
    unfold matching. rewrite strict_eq_refl. apply andb_true_r.
Qed.

(** X17: the pre-check does not set the caller's own account aside as
    [awardReferralPoints] does: for the stored fingerprint of any account
    that has a [visitorId] field and a truthy fixed field, it reports
    multiple accounts, hence fraud. *)
Theorem precheck_flags_registered_fingerprint
    (u : User) (fp : Fingerprint) (referralCode : option string) (s : Store) :
  In u s ->
  fingerprint u = Some fp ->
  visitorIdExists u = true ->
  (exists field, In field fixedFields /\ truthy (prop fp field) = true) ->
  exists fraudChecks note,
    checkFingerprintFraud (Some fp) referralCode s
      = (inr (FraudReport true fraudChecks note), s) /\
    multipleAccounts fraudChecks = true.
Proof.
  intros Hin Hfp Hscan Htruthy. rewrite checkFingerprintFraud_run. cbv zeta.
  pose proof (find_filter_first visitorIdExists
                (matchesFingerprint (Some fp) (7 # 10)) s) as Hfirst.
  destruct (List.find _ (List.filter visitorIdExists s)) as [existing|].
  - rewrite orb_true_r. eexists _, _. split; reflexivity.
  - exfalso. specialize (Hfirst u Hin Hscan).
    rewrite matchesFingerprint_isSameDevice, Hfp in Hfirst.
    rewrite (isSameDevice_self fp (7 # 10) Htruthy) in Hfirst;
      discriminate.
Qed.

Lemma precheck_flags_registered_fingerprint_witness :
  In olderAccount crowdedStore /\
  exists fp fraudChecks note,
    fingerprint olderAccount = Some fp /\
    checkFingerprintFraud (Some fp) None crowdedStore
      = (inr (FraudReport true fraudChecks note), crowdedStore) /\
    multipleAccounts fraudChecks = true.
Proof.
  assert (Hin : In olderAccount crowdedStore) by (right; left; reflexivity).
  split; [exact Hin|].
  destruct (precheck_flags_registered_fingerprint olderAccount _ None
              crowdedStore Hin eq_refl eq_refl)
    as (fraudChecks & note & Hrun & Hmulti).
  - exists "platform". split; [left; reflexivity|vm_compute; reflexivity].
  - eexists _, fraudChecks, note. split; [reflexivity|].
    split; [exact Hrun|exact Hmulti].
Defined.



(** ** Properties of the lookups by fingerprint *)

Lemma similarQuery_conditions (data : Fingerprint) (field : string) (v : value) :
  In (field, v) (similarQuery (Some data)) <->
  In field similarQueryFields /\ truthy (prop data field) = true
  /\ v = prop data field.
Proof.
  unfold similarQuery. rewrite List.in_flat_map. split.
  - intros [f [Hf Hin]]. destruct (truthy (prop data f)) eqn:Ht.
    + destruct Hin as [[= <- <-]|[]]. auto.
    + destruct Hin.
  - intros (Hf & Ht & ->). exists field. split; [exact Hf|].
    rewrite Ht. left. reflexivity.
Qed.

(** X19: a search without any usable field returns the whole collection:
    [findSimilarFingerprints] answers every account of the store, in store
    order and accounts without a fingerprint included, when the
    fingerprint is absent or none of its platform, vendor, timezone,
    userAgent and screenResolution is truthy; the store is left as it
    was. *)
Theorem findSimilarFingerprints_without_fields
    (fingerprintData : option Fingerprint) (threshold : Q) (s : Store) :
  (forall data, fingerprintData = Some data ->
     forall field, In field similarQueryFields ->
       truthy (prop data field) = false) ->
  findSimilarFingerprints fingerprintData threshold s = (inr s, s).
Proof.
  intros Hnone. unfold findSimilarFingerprints, find.
  assert (Hq : similarQuery fingerprintData = []).
  { destruct fingerprintData as [data|]; [|reflexivity].
    destruct (similarQuery (Some data)) as [|[field v] rest] eqn:E;
      [reflexivity|].
    assert (Hin : In (field, v) (similarQuery (Some data)))
      by (rewrite E; left; reflexivity).
    apply similarQuery_conditions in Hin as (Hf & Ht & _).
    rewrite (Hnone data eq_refl field Hf) in Ht. discriminate. }
  rewrite Hq. f_equal. f_equal.
  induction s as [|u s IH]; simpl; [reflexivity|]. rewrite IH. reflexivity.
Qed.

Lemma findSimilarFingerprints_without_fields_witness :
  findSimilarFingerprints None (4 # 5) bareStore = (inr bareStore, bareStore) /\
  findSimilarFingerprints (Some zeroTouchFingerprint) (4 # 5) bareStore
    = (inr bareStore, bareStore).
Proof.
  split.
  - apply (findSimilarFingerprints_without_fields None (4 # 5) bareStore).
    intros data [=].
  - apply (findSimilarFingerprints_without_fields (Some zeroTouchFingerprint)
             (4 # 5) bareStore).
    intros data [= <-] field Hin. unfold similarQueryFields in Hin.
    simpl in Hin. repeat (destruct Hin as [<-|Hin]); [..|contradiction];
      reflexivity.
Defined.

Lemma strict_eq_string_eq (x : value) (v : string) :
  strict_eq x (JStr v) = true <-> x = JStr v.
Proof.
  destruct x; simpl; split; try discriminate.
  - intros H. apply String.eqb_eq in H. congruence.
  - intros [= ->]. apply String.eqb_refl.
Qed.

(** X20: for a fingerprint whose usable query fields hold strings,
    [findSimilarFingerprints] returns exactly the accounts of the store
    whose stored fingerprint has the same value in each of platform,
    vendor, timezone, userAgent and screenResolution that is truthy in
    the given fingerprint; the other fields and the threshold play no
    part. *)
Theorem findSimilarFingerprints_exact
    (data : Fingerprint) (threshold : Q) (s : Store) (u : User) :
  (forall field, In field similarQueryFields ->
     truthy (prop data field) = true -> exists v, prop data field = JStr v) ->
  (exists result,
     findSimilarFingerprints (Some data) threshold s = (inr result, s) /\
     (In u result <->
      In u s /\
      forall field, In field similarQueryFields ->
        truthy (prop data field) = true ->
        exists stored,
          fingerprint u = Some stored /\ prop stored field = prop data field)).
Proof.
  intros Hstr. unfold findSimilarFingerprints, find.
  eexists. split; [reflexivity|].
  rewrite List.filter_In. unfold satisfies. rewrite List.forallb_forall.
  split; intros [Hin H]; (split; [exact Hin|]).
  - intros field Hf Ht.
    specialize (H (field, prop data field)). simpl in H.
    destruct (Hstr field Hf Ht) as [v Hv].
    destruct (fingerprint u) as [stored|].
    + exists stored. split; [reflexivity|].
      rewrite Hv. apply strict_eq_string_eq. rewrite <- Hv.
      apply H. apply similarQuery_conditions. auto.
    + assert (false = true); [|discriminate].
      apply H. apply similarQuery_conditions. auto.
  - intros [field v] Hc. simpl.
    apply similarQuery_conditions in Hc as (Hf & Ht & ->).
    destruct (H field Hf Ht) as (stored & -> & ->).
    apply strict_eq_refl.
Qed.

Lemma findSimilarFingerprints_exact_witness :
  exists result,
    findSimilarFingerprints (Some win32Candidate) (4 # 5) scenarioStore
      = (inr result, scenarioStore) /\
    (In referrerAccount result <->
     In referrerAccount scenarioStore /\
     forall field, In field similarQueryFields ->
       truthy (prop win32Candidate field) = true ->
       exists stored,
         fingerprint referrerAccount = Some stored
         /\ prop stored field = prop win32Candidate field).
Proof.
  apply (findSimilarFingerprints_exact win32Candidate (4 # 5) scenarioStore
           referrerAccount).
  intros field Hin. unfold similarQueryFields in Hin. simpl in Hin.
  repeat (destruct Hin as [<-|Hin]); [..|contradiction];
    vm_compute; intros H; try discriminate; eauto.
Defined.

(** ** Properties of the referral codes *)

(** Every index below 36 selects one character of the alphabet. *)
Lemma charAt_chars (k : Z) :
  (0 <= k < 36)%Z ->
  exists c, charAt chars k = String c EmptyString /\ isUpperAlnum c = true.
Proof.
  intros Hk.
  assert (Hall : forallb
                   (fun n => match charAt chars (Z.of_nat n) with
                             | String c EmptyString => isUpperAlnum c
                             | _ => false
                             end) (seq 0 36) = true)
    by (vm_compute; reflexivity).
  rewrite List.forallb_forall in Hall.
  specialize (Hall (Z.to_nat k)). rewrite Z2Nat.id in Hall by lia.
  assert (Hin : In (Z.to_nat k) (seq 0 36)) by (apply List.in_seq; lia).
  specialize (Hall Hin).
  destruct (charAt chars k) as [|c [|]]; try discriminate. eauto.
Qed.

Lemma random_index (r : Q) :
  (0 <= r)%Q -> (r < 1)%Q ->
  (0 <= Qfloor (r * inject_Z (Z.of_nat (String.length chars))) < 36)%Z.
Proof.
  intros H0 H1. change (String.length chars) with 36%nat.
  change (inject_Z (Z.of_nat 36)) with (36 # 1)%Q.
  split.
  - change 0%Z with (Qfloor 0). apply Qfloor_resp_le.
    apply Qmult_le_0_compat; [exact H0|discriminate].
  - rewrite Zlt_Qlt.
    apply (Qle_lt_trans _ (r * (36 # 1))%Q); [apply Qfloor_le|].
    destruct r as [n d]. unfold Qlt in *. simpl in *.
    rewrite Pos.mul_1_r. lia.
Qed.

Lemma checks_of_format (code : string) :
  (1 <= String.length code <= 50)%nat ->
  Forall (fun c => isUpperAlnum c = true) (String.list_ascii_of_string code) ->
  enteredReferralCodeChecks code = true.
Proof.
  intros [Hmin Hmax] Hall. unfold enteredReferralCodeChecks.
  apply andb_true_iff. split.
  - apply andb_true_iff. split; apply Nat.leb_le; assumption.
  - apply andb_true_iff. split.
    + destruct code; [simpl in Hmin; lia|reflexivity].
    + apply List.forallb_forall. rewrite List.Forall_forall in Hall. exact Hall.
Qed.

(** X21: whatever [Math.random()] returns in [0,1), the code the loop
    builds has exactly 8 characters, each an uppercase letter or a digit,
    and so passes the length and pattern checks the registration applies
    to an entered referral code. *)
Theorem generated_code_format (random : nat -> Q) :
  (forall i, (i < 8)%nat -> (0 <= random i)%Q /\ (random i < 1)%Q) ->
  String.length (referralCodeLoop random) = 8%nat /\
  Forall (fun c => isUpperAlnum c = true)
         (String.list_ascii_of_string (referralCodeLoop random)) /\
  enteredReferralCodeChecks (referralCodeLoop random) = true.
Proof.
  intros Hr. unfold referralCodeLoop. cbn [seq foldl].
  assert (Hc : forall i, (i < 8)%nat ->
             exists c,
               charAt chars
                 (Qfloor (random i * inject_Z (Z.of_nat (String.length chars))))
               = String c EmptyString /\ isUpperAlnum c = true).
  { intros i Hi. destruct (Hr i Hi) as [H0 H1].
    apply charAt_chars, random_index; assumption. }
  destruct (Hc 0%nat ltac:(lia)) as (c0 & -> & H0).
  destruct (Hc 1%nat ltac:(lia)) as (c1 & -> & H1).
  destruct (Hc 2%nat ltac:(lia)) as (c2 & -> & H2).
  destruct (Hc 3%nat ltac:(lia)) as (c3 & -> & H3).
  destruct (Hc 4%nat ltac:(lia)) as (c4 & -> & H4).
  destruct (Hc 5%nat ltac:(lia)) as (c5 & -> & H5).
  destruct (Hc 6%nat ltac:(lia)) as (c6 & -> & H6).
  destruct (Hc 7%nat ltac:(lia)) as (c7 & -> & H7).
  simpl String.append.
  assert (Hall : Forall (fun c => isUpperAlnum c = true)
                   (String.list_ascii_of_string
                      (String c0 (String c1 (String c2 (String c3
                        (String c4 (String c5 (String c6 (String c7 ""))))))))))
    by (cbn [String.list_ascii_of_string]; repeat constructor; assumption).
  split; [reflexivity|]. split; [exact Hall|].
  apply checks_of_format; [simpl; lia|exact Hall].
Qed.

Lemma generated_code_format_witness :
  referralCodeLoop (fun i => inject_Z (Z.of_nat i) / 8)%Q = "AEJNSW15" /\
  String.length (referralCodeLoop (fun i => inject_Z (Z.of_nat i) / 8)%Q) = 8%nat /\
  enteredReferralCodeChecks
    (referralCodeLoop (fun i => inject_Z (Z.of_nat i) / 8)%Q) = true.
Proof.
  split; [vm_compute; reflexivity|].
  destruct (generated_code_format (fun i => inject_Z (Z.of_nat i) / 8)%Q)
    as (Hlen & _ & Hchecks).
  - intros i Hi.
    do 8 (destruct i as [|i]; [split; [discriminate|reflexivity]|]). lia.
  - split; [exact Hlen|exact Hchecks].
Defined.

(** What a lookup by code finds after the code of one document was
    written. *)
Lemma find_code_after_update (code : string) (this : User) (s : Store) :
  uniqueIds s -> In this s ->
  List.find (fun u => String.eqb (myReferralCode u) code)
            (updateOne (_id this) (setReferralCode code) s)
  = match List.find (fun u => String.eqb (myReferralCode u) code
                              || String.eqb (_id u) (_id this)) s with
    | Some u => Some (if String.eqb (_id u) (_id this)
                      then setReferralCode code u else u)
    | None => None
    end.
Proof.
  intros Hu Hin. induction s as [|v s IH]; simpl; [reflexivity|].
  destruct (String.eqb (_id v) (_id this)) eqn:E; simpl.
  - rewrite String.eqb_refl, orb_true_r, E. reflexivity.
  - rewrite orb_false_r.
    destruct (String.eqb (myReferralCode v) code); [rewrite E; reflexivity|].
    destruct Hin as [->|Hin]; [rewrite String.eqb_refl in E; discriminate|].
    unfold uniqueIds in Hu. simpl in Hu.
    apply List.NoDup_cons_iff in Hu as [_ Hu]. apply IH; assumption.
Qed.

(** X22: codes are written without a uniqueness check.  In a collection
    with unique identities, after [generateReferralCode] gave an account a
    new code, [findByReferralCode] with that code finds this account when
    no account stored ahead of it has the same code, and otherwise the
    first such account, so that a referral with the new code credits the
    older holder. *)
Theorem generated_code_lookup
    (this : User) (random : nat -> Q) (before after : Store) :
  let s := (before ++ this :: after)%list in
  let code := referralCodeLoop random in
  uniqueIds s ->
  exists doc s',
    generateReferralCode this random s = (inr doc, s') /\
    myReferralCode doc = code /\ _id doc = _id this /\
    points doc = points this /\
    findByReferralCode code s'
    = (inr (match List.find (fun u => String.eqb (myReferralCode u) code)
                            before with
            | Some older => Some older
            | None => Some doc
            end), s').
Proof.
  intros s code Hu. unfold generateReferralCode. eexists _, _.
  split; [reflexivity|]. cbn [myReferralCode _id points setReferralCode].
  repeat split.
  unfold findByReferralCode, findOne. f_equal. f_equal.
  assert (Hin : In this s)
    by (unfold s; apply List.in_or_app; right; left; reflexivity).
  fold code. rewrite (find_code_after_update code this s Hu Hin).
  unfold s. clear Hin. unfold uniqueIds in Hu. subst s.
  induction before as [|v before IH]; simpl.
  - rewrite String.eqb_refl, orb_true_r. simpl.
    rewrite String.eqb_refl. reflexivity.
  - simpl in Hu. apply List.NoDup_cons_iff in Hu as [Hnotin Hu].
    destruct (String.eqb (_id v) (_id this)) eqn:E.
    + exfalso. apply String.eqb_eq in E. apply Hnotin.
      rewrite E, List.map_app.
      apply List.in_or_app. right. left. reflexivity.
    + rewrite orb_false_r.
      destruct (String.eqb (myReferralCode v) code); [rewrite E; reflexivity|].
      apply IH, Hu.
Qed.

Lemma generated_code_lookup_witness :
  referralCodeLoop (fun _ => 0%Q) = "AAAAAAAA" /\
  uniqueIds ([referrerAccount] ++ bareAccount :: [])%list /\
  exists doc s',
    generateReferralCode bareAccount (fun _ => 0%Q)
      ([referrerAccount] ++ bareAccount :: [])%list = (inr doc, s') /\
    myReferralCode doc = "AAAAAAAA" /\
    findByReferralCode "AAAAAAAA" s' = (inr (Some doc), s').
Proof.
  assert (Hu : uniqueIds ([referrerAccount] ++ bareAccount :: [])%list).
  { unfold uniqueIds. simpl.
    repeat constructor; simpl; intros H; repeat destruct H as [H|H];
      try discriminate; assumption. }
  split; [vm_compute; reflexivity|]. split; [exact Hu|].
  destruct (generated_code_lookup bareAccount (fun _ => 0%Q)
              [referrerAccount] [] Hu)
    as (doc & s' & Hrun & Hcode & _ & _ & Hfind).
  exists doc, s'. split; [exact Hrun|]. split; [exact Hcode|].
  exact Hfind.
Defined.

(** ** Further properties of the model's methods *)

(** X23: an account [findByVisitorId] returns is in the store, stores
    that visitor id, and is among the accounts [findMatchingFingerprint]
    scans; the lookup leaves the store as it was. *)
Theorem findByVisitorId_found_is_scanned
    (visitorId : string) (s s' : Store) (u : User) :
  findByVisitorId visitorId s = (inr (Some u), s') ->
  s' = s /\ In u s /\ visitorIdExists u = true /\
  exists fp, fingerprint u = Some fp /\ prop fp "visitorId" = JStr visitorId.
Proof.
  unfold findByVisitorId, findOne. intros H. injection H as Hfind Hs.
  split; [auto|]. apply find_In in Hfind as [Hin Hq]. split; [exact Hin|].
  unfold visitorIdExists. destruct (fingerprint u) as [fp|]; [|discriminate].
  apply strict_eq_string_eq in Hq. rewrite Hq.
  split; [reflexivity|]. eauto.
Qed.

Lemma findByVisitorId_found_is_scanned_witness :
  findByVisitorId "58d047a06034819c3deda39c1ab5446a" crowdedStore
    = (inr (Some olderAccount), crowdedStore) /\
  visitorIdExists olderAccount = true.
Proof.
  assert (H : findByVisitorId "58d047a06034819c3deda39c1ab5446a" crowdedStore
              = (inr (Some olderAccount), crowdedStore))
    by (vm_compute; reflexivity).
  split; [exact H|].
  destruct (findByVisitorId_found_is_scanned _ _ _ _ H) as (_ & _ & Hscan & _).
  exact Hscan.
Defined.

Lemma updateOne_setPoints_twice id p q (s : Store) :
  updateOne id (setPoints q) (updateOne id (setPoints p) s)
  = updateOne id (setPoints q) s.
Proof.
  induction s as [|v s IH]; simpl; [reflexivity|].
  destruct (String.eqb (_id v) id) eqn:E; simpl; rewrite E;
    [reflexivity|]. rewrite IH. reflexivity.
Qed.

(** X24: [addPoints] composes by addition: adding [p] points to a
    document and then [q] to the document it answers leaves the same
    document and the same store as adding [p + q] at once; no other
    account's points change. *)
Theorem addPoints_composes (this : User) (p q : N) (s : Store) :
  (exists doc s1,
     addPoints this p s = (inr doc, s1) /\
     addPoints doc q s1 = addPoints this (p + q) s) /\
  forall id, id <> _id this ->
    pointsOf id (snd (addPoints this p s)) = pointsOf id s.
Proof.
  split.
  - eexists _, _. split; [reflexivity|].
    unfold addPoints, save. cbn [_id points setPoints].
    rewrite updateOne_setPoints_twice, N.add_assoc. reflexivity.
  - intros id Hid. unfold addPoints, save. cbn [snd _id points setPoints].
    apply pointsOf_updateOne_other, Hid.
Qed.

(** ** Properties of the fingerprint updates *)

Section FingerprintUpdateProperties.

Variable assignFingerprint : option Fingerprint -> Fingerprint -> option Fingerprint.

Lemma updateOne_setFingerprint id f (s : Store) :
  List.map _id (updateOne id (setFingerprint f) s) = List.map _id s /\
  List.map myReferralCode (updateOne id (setFingerprint f) s)
    = List.map myReferralCode s /\
  List.map points (updateOne id (setFingerprint f) s) = List.map points s.
Proof.
  induction s as [|v s (IH1 & IH2 & IH3)]; simpl; [auto|].
  destruct (String.eqb (_id v) id); simpl; [auto|].
  rewrite IH1, IH2, IH3. auto.
Qed.


Lemma updateFingerprintRoute_run userId reqFingerprint (s : Store) :
  updateFingerprintRoute assignFingerprint userId reqFingerprint s =
  match userId, reqFingerprint with
  | Some id, Some fingerprintData =>
      if truthyString userId then
        match List.find (fun u => String.eqb (_id u) id) s with
        | None => (inr UpdateNotFound, s)
        | Some user =>
            let stored :=
              assignFingerprint (fingerprint user) fingerprintData in
            (inr (UpdateDone (_id user) stored),
             updateOne (_id user) (setFingerprint stored) s)
        end
      else (inr UpdateRequired, s)
  | _, _ => (inr UpdateRequired, s)
  end.
Proof.
  unfold updateFingerprintRoute.
  destruct userId as [id|]; [|reflexivity].
  destruct reqFingerprint as [fingerprintData|]; [|reflexivity].
  destruct (truthyString (Some id)); [|reflexivity].
  unfold bind, findById, findOne.
  destruct (List.find _ s); reflexivity.
Qed.


(** X26: whatever it answers, [PUT /auth/update-fingerprint] leaves the
    accounts of the store in place with their identities, referral codes
    and points; when it answers 400 (user id or fingerprint missing) or
    404 (no such user) it leaves the whole store as it was. *)
Theorem update_fingerprint_keeps_points
    (userId : option string) (reqFingerprint : option Fingerprint) (s : Store) :
  let run := updateFingerprintRoute assignFingerprint userId reqFingerprint s in
  List.map _id (snd run) = List.map _id s /\
  List.map myReferralCode (snd run) = List.map myReferralCode s /\
  List.map points (snd run) = List.map points s /\
  (forall id, pointsOf id (snd run) = pointsOf id s) /\
  (fst run = inr UpdateRequired \/ fst run = inr UpdateNotFound -> snd run = s).
Proof.
  intros run. subst run. rewrite updateFingerprintRoute_run.
  assert (Hkeep : forall id f,
            forall id', pointsOf id' (updateOne id (setFingerprint f) s)
                        = pointsOf id' s).
  { intros id f id'. unfold pointsOf. induction s as [|v rest IH]; simpl;
      [reflexivity|].
    destruct (String.eqb (_id v) id) eqn:E; simpl.
    - destruct (String.eqb (_id v) id'); reflexivity.
    - destruct (String.eqb (_id v) id'); [reflexivity|exact IH]. }
  destruct userId as [id|]; [|simpl; auto 6].
  destruct reqFingerprint as [fingerprintData|]; [|simpl; auto 6].
  destruct (truthyString (Some id)); [|simpl; auto 6].
  destruct (List.find (fun u => String.eqb (_id u) id) s) as [user|];
    [|simpl; auto 6].
  cbv zeta. cbn [fst snd].
  destruct (updateOne_setFingerprint (_id user)
              (assignFingerprint (fingerprint user) fingerprintData) s)
    as (H1 & H2 & H3).
  repeat split; auto.
  intros [H|H]; discriminate.
Qed.

End FingerprintUpdateProperties.

